(** * Calcu-App: the Streamlit calculator of [app.py]

    A shallow embedding of the helpers of [app.py] ([format_number],
    [to_radians], [from_radians], [add_history]) and of its three button
    handlers (Calculate, Clear history, Copy last result), followed by the
    properties of the evaluator and of the history ledger.

    Python values are modelled as they occur in the script: [None], [int]
    (unbounded, [Z]) and [float] (IEEE 754 binary64, Rocq's [spec_float] at
    precision 53 and maximal exponent 1024).  Exceptions are values of an
    error monad; the session's history list is passed explicitly. *)

From Stdlib Require Import ZArith List String Ascii Bool Lia.
From Stdlib Require Import SpecFloat DecimalString DecimalPos DecimalZ.
Import ListNotations.

Local Open Scope string_scope.
Local Open Scope Z_scope.

Definition float : Type := spec_float.

(* ------------------------------------------------------------------ *)
(** ** Python floats: IEEE 754 binary64 *)

Module F64.

Definition prec : Z := 53.
Definition emax : Z := 1024.

Definition add : float -> float -> float := SFadd prec emax.
Definition sub : float -> float -> float := SFsub prec emax.
Definition mul : float -> float -> float := SFmul prec emax.
Definition div : float -> float -> float := SFdiv prec emax.
Definition sqrt : float -> float := SFsqrt prec emax.
Definition abs : float -> float := SFabs.
Definition eqb : float -> float -> bool := SFeqb.
Definition ltb : float -> float -> bool := SFltb.
Definition leb : float -> float -> bool := SFleb.

(** The double nearest to an integer (ties to even); an infinity when the
    integer is beyond the range of binary64. *)
Definition of_Z (n : Z) : float := binary_normalize prec emax n 0 false.

(** The integer itself as an unrounded numerator or denominator. *)
Definition exact_of_Z (n : Z) : float :=
  match n with
  | Z0 => S754_zero false
  | Zpos p => S754_finite false p 0
  | Zneg p => S754_finite true p 0
  end.

Definition zero : float := S754_zero false.
Definition one : float := of_Z 1.
Definition two : float := of_Z 2.

Definition is_nan (x : float) : bool :=
  match x with S754_nan => true | _ => false end.

Definition is_inf (x : float) : bool :=
  match x with S754_infinity _ => true | _ => false end.

Definition is_finite (x : float) : bool :=
  match x with S754_zero _ | S754_finite _ _ _ => true | _ => false end.

Definition is_zero (x : float) : bool :=
  match x with S754_zero _ => true | _ => false end.

Definition sign_bit (x : float) : bool :=
  match x with
  | S754_zero s | S754_infinity s | S754_finite s _ _ => s
  | S754_nan => false
  end.

(** A finite float is a binary64 datum when its mantissa and exponent are
    in canonical form. *)
Definition well_formed (x : float) : bool := valid_binary prec emax x.

(** Exact comparison of a float with an integer (Python compares an
    [int] and a [float] without rounding either). *)
Definition compare_Z (x : float) (n : Z) : option comparison :=
  match x with
  | S754_nan => None
  | S754_infinity s => Some (if s then Lt else Gt)
  | S754_zero _ => Some (0 ?= n)
  | S754_finite s m e =>
      let v := cond_Zopp s (Zpos m) in
      Some (if 0 <=? e then (v * 2 ^ e ?= n) else (v ?= n * 2 ^ (- e)))
  end.

(** [x] equals the integer [n]. *)
Definition eqb_Z (x : float) (n : Z) : bool :=
  match compare_Z x n with
  | Some Eq => true
  | _ => false
  end.

(** [x] is an integer; [x] is an odd integer. *)
Definition is_integer (x : float) : bool :=
  match x with
  | S754_zero _ => true
  | S754_finite _ m e => if 0 <=? e then true else (Zpos m mod 2 ^ (- e) =? 0)
  | _ => false
  end.

Definition is_odd_integer (x : float) : bool :=
  match x with
  | S754_finite _ m e =>
      if 0 <? e then false
      else (Zpos m mod 2 ^ (- e) =? 0) && Z.odd (Zpos m / 2 ^ (- e))
  | _ => false
  end.

(** [M_PI] of the C library, 0x1.921fb54442d18p+1. *)
Definition pi : float := S754_finite false 7074237752028440 (-51).

End F64.


(* ------------------------------------------------------------------ *)
(** ** Python values, exceptions and the error monad *)

Inductive pyval : Type :=
| VNone
| VInt (n : Z)
| VFloat (f : float).

(** Texts the interpreter and its [math] module put into the exceptions
    they raise.  Their wording changes between CPython releases, so they are
    kept symbolic; the texts written in [app.py] are literal strings. *)
Inductive builtin_text : Type :=
| math_domain_error          (* ValueError of [math]: invalid argument *)
| math_range_error           (* OverflowError of [math]: result too large *)
| int_too_large_for_float    (* OverflowError: int too large to convert to float *)
| division_result_too_large  (* OverflowError: integer division result too large *)
| division_by_zero           (* ZeroDivisionError raised by [/] itself *)
| must_be_real_number        (* TypeError: must be real number, not NoneType *)
| unsupported_operand        (* TypeError: unsupported operand type(s) *)
| not_comparable             (* TypeError: '<' not supported between ... *)
| bad_operand_for_abs        (* TypeError: bad operand type for abs() *)
| not_an_integer             (* TypeError: object cannot be interpreted as an integer *)
| factorial_negative         (* ValueError: factorial() not defined for negative values *)
| factorial_too_large        (* OverflowError: factorial() argument should not exceed LONG_MAX *)
| int_str_limit              (* ValueError: Exceeds the limit (4300 digits) for integer string conversion *)
| precision_too_big          (* ValueError: precision too big *)
| unsupported_format_string. (* TypeError: unsupported format string passed to NoneType.__format__ *)

Inductive errtext : Type :=
| Text (s : string)
| Builtin (t : builtin_text).

Inductive exn : Type :=
| ZeroDivisionError (t : errtext)
| ValueError (t : errtext)
| TypeError (t : errtext)
| OverflowError (t : errtext).

(** [str(e)] *)
Definition str_exn (e : exn) : errtext :=
  match e with
  | ZeroDivisionError t | ValueError t | TypeError t | OverflowError t => t
  end.

(** A computation that returns a value or raises. *)
Definition result (A : Type) : Type := (exn + A)%type.

Definition ret {A : Type} (a : A) : result A := inr a.
Definition raise {A : Type} (e : exn) : result A := inl e.

Definition bind {A B : Type} (c : result A) (k : A -> result B) : result B :=
  match c with
  | inl e => inl e
  | inr a => k a
  end.

Notation "x <- c ;; k" := (bind c (fun x => k))
  (at level 61, c at next level, right associativity).

(* ------------------------------------------------------------------ *)
(** ** What the script takes from the Python runtime

    The C library's elementary functions on doubles, the interpreter's
    [repr] of a float and the platform's [LONG_MAX] are not part of the
    repository; every definition below is parametric in them. *)

Record runtime : Type := {
  c_sin : float -> float;
  c_cos : float -> float;
  c_tan : float -> float;
  c_asin : float -> float;
  c_acos : float -> float;
  c_atan : float -> float;
  c_exp : float -> float;
  c_log : float -> float;
  c_log10 : float -> float;
  (* [pow] of the C library away from the special cases of C99 F.10.4.4 *)
  pow_core : float -> float -> float;
  (* [repr] of a float, which is also its [str] *)
  float_repr : float -> string;
  LONG_MAX : Z
}.

(* ------------------------------------------------------------------ *)
(** ** The operators and built-ins the script applies to its operands *)

(** [PyFloat_AsDouble]: the conversion every float operation and every
    [math] function applies to an argument. *)
Definition as_double (v : pyval) : result float :=
  match v with
  | VFloat f => ret f
  | VInt n =>
      let f := F64.of_Z n in
      if F64.is_inf f then raise (OverflowError (Builtin int_too_large_for_float))
      else ret f
  | VNone => raise (TypeError (Builtin must_be_real_number))
  end.

(** [a + b], [a - b], [a * b]: exact on two ints, in binary64 otherwise. *)
Definition arith (on_int : Z -> Z -> Z) (on_float : float -> float -> float)
    (a b : pyval) : result pyval :=
  match a, b with
  | VInt m, VInt n => ret (VInt (on_int m n))
  | VNone, _ | _, VNone => raise (TypeError (Builtin unsupported_operand))
  | _, _ =>
      x <- as_double a ;;
      y <- as_double b ;;
      ret (VFloat (on_float x y))
  end.

Definition py_add : pyval -> pyval -> result pyval := arith Z.add F64.add.
Definition py_sub : pyval -> pyval -> result pyval := arith Z.sub F64.sub.
Definition py_mul : pyval -> pyval -> result pyval := arith Z.mul F64.mul.

(** [a / b] on two floats. *)
Definition float_truediv (x y : float) : result float :=
  if F64.eqb y F64.zero then raise (ZeroDivisionError (Builtin division_by_zero))
  else ret (F64.div x y).

(** [a / b]: true division.  Two ints give the correctly rounded quotient. *)
Definition py_truediv (a b : pyval) : result pyval :=
  match a, b with
  | VInt m, VInt n =>
      if n =? 0 then raise (ZeroDivisionError (Builtin division_by_zero))
      else
        let q := F64.div (F64.exact_of_Z m) (F64.exact_of_Z n) in
        if F64.is_inf q then raise (OverflowError (Builtin division_result_too_large))
        else ret (VFloat q)
  | VNone, _ | _, VNone => raise (TypeError (Builtin unsupported_operand))
  | _, _ =>
      x <- as_double a ;;
      y <- as_double b ;;
      q <- float_truediv x y ;;
      ret (VFloat q)
  end.

(** Ordering of two numbers; [None] is not ordered. *)
Definition py_compare (a b : pyval) : result (option comparison) :=
  match a, b with
  | VInt m, VInt n => ret (Some (m ?= n))
  | VFloat f, VFloat g => ret (SFcompare f g)
  | VFloat f, VInt n => ret (F64.compare_Z f n)
  | VInt n, VFloat f => ret (option_map CompOpp (F64.compare_Z f n))
  | _, _ => raise (TypeError (Builtin not_comparable))
  end.

(** [a < b] *)
Definition py_lt (a b : pyval) : result bool :=
  c <- py_compare a b ;;
  ret (match c with Some Lt => true | _ => false end).

(** [a <= b] *)
Definition py_le (a b : pyval) : result bool :=
  c <- py_compare a b ;;
  ret (match c with Some (Lt | Eq) => true | _ => false end).

(** [a == b]; it never raises, and [None] equals only [None]. *)
Definition py_eq (a b : pyval) : bool :=
  match a, b with
  | VNone, VNone => true
  | _, _ =>
      match py_compare a b with
      | inr (Some Eq) => true
      | _ => false
      end
  end.

(** [abs(a)] *)
Definition py_abs (a : pyval) : result pyval :=
  match a with
  | VInt n => ret (VInt (Z.abs n))
  | VFloat f => ret (VFloat (F64.abs f))
  | VNone => raise (TypeError (Builtin bad_operand_for_abs))
  end.

(** [isinstance(a, int)] *)
Definition is_int (a : pyval) : bool :=
  match a with VInt _ => true | _ => false end.

(** [a is None] *)
Definition is_None (a : pyval) : bool :=
  match a with VNone => true | _ => false end.

(** The float literals of the script. *)
Definition lit_100 : float := F64.of_Z 100.
Definition lit_minus_1 : float := F64.of_Z (-1).
Definition lit_1 : float := F64.of_Z 1.

(* ------------------------------------------------------------------ *)
(** ** The [math] module (CPython's [Modules/mathmodule.c]) *)

(** Factorial on integers. *)
Fixpoint zfact (n : nat) : Z :=
  match n with
  | O => 1
  | S k => Z.of_nat n * zfact k
  end.

(** [degToRad = Py_MATH_PI / 180.0] and [radToDeg = 180.0 / Py_MATH_PI] *)
Definition degToRad : float := F64.div F64.pi (F64.of_Z 180).
Definition radToDeg : float := F64.div (F64.of_Z 180) F64.pi.

(** [math.radians(x)] and [math.degrees(x)] *)
Definition math_radians (v : pyval) : result float :=
  x <- as_double v ;;
  ret (F64.mul x degToRad).

Definition math_degrees (v : pyval) : result float :=
  x <- as_double v ;;
  ret (F64.mul x radToDeg).

(** [math_1]: the wrapper around a C function of one double.  A NaN from a
    non-NaN argument is a domain error; an infinity from a finite argument
    is a range error where the function can overflow and a domain error
    where it cannot.  (The wrapper's last test, on [errno] with a finite
    result, concerns underflow only and raises nothing.) *)
Definition math_1 (func : float -> float) (can_overflow : bool) (arg : pyval)
    : result float :=
  x <- as_double arg ;;
  let r := func x in
  if F64.is_nan r && negb (F64.is_nan x) then
    raise (ValueError (Builtin math_domain_error))
  else if F64.is_inf r && F64.is_finite x then
    if can_overflow then raise (OverflowError (Builtin math_range_error))
    else raise (ValueError (Builtin math_domain_error))
  else ret r.

(** [m_log], [m_log10]: the C logarithm behind a guard that fixes the
    results outside its domain. *)
Definition m_log (log : float -> float) (x : float) : float :=
  if F64.is_finite x then
    if F64.ltb F64.zero x then log x
    else if F64.eqb x F64.zero then S754_infinity true
    else S754_nan
  else if F64.is_nan x then x
  else if F64.ltb F64.zero x then x
  else S754_nan.

(** [_PyLong_Frexp] of a positive int: [(x, e)] with [0.5 <= x < 1] the
    nearest double (ties to even) to [n / 2^e]. *)
Definition long_frexp (n : Z) : float * Z :=
  let bits := Z.log2 n + 1 in
  let x := binary_normalize F64.prec F64.emax n (- bits) false in
  if F64.eqb x F64.one then (F64.div F64.one F64.two, bits + 1) else (x, bits).

(** [loghelper]: an int is handled without [math_1], and one too large for
    a double through its mantissa and exponent. *)
Definition loghelper (func : float -> float) (arg : pyval) : result float :=
  match arg with
  | VInt n =>
      if n <=? 0 then raise (ValueError (Builtin math_domain_error))
      else
        let x := F64.of_Z n in
        if F64.is_inf x then
          let '(m, e) := long_frexp n in
          ret (F64.add (func m) (F64.mul (func F64.two) (F64.of_Z e)))
        else ret (func x)
  | _ => math_1 func false arg
  end.

Section Math.

Context (R : runtime).

Definition math_sqrt : pyval -> result float := math_1 F64.sqrt false.
Definition math_exp : pyval -> result float := math_1 (c_exp R) true.
Definition math_sin : pyval -> result float := math_1 (c_sin R) false.
Definition math_cos : pyval -> result float := math_1 (c_cos R) false.
Definition math_tan : pyval -> result float := math_1 (c_tan R) false.
Definition math_asin : pyval -> result float := math_1 (c_asin R) false.
Definition math_acos : pyval -> result float := math_1 (c_acos R) false.
Definition math_atan : pyval -> result float := math_1 (c_atan R) false.

(** [math.log(x)] and [math.log10(x)] *)
Definition math_log : pyval -> result float := loghelper (m_log (c_log R)).
Definition math_log10 : pyval -> result float := loghelper (m_log (c_log10 R)).

(** [math.log(x, base)]: the quotient of the two natural logarithms. *)
Definition math_log_base (x base : pyval) : result float :=
  num <- math_log x ;;
  den <- math_log base ;;
  float_truediv num den.

(** [pow] of the C library on finite arguments: the results C99 (F.10.4.4)
    fixes, and the library's own computation elsewhere. *)
Definition c_pow (x y : float) : float :=
  if F64.is_zero y then F64.one
  else if F64.eqb x F64.one then F64.one
  else if F64.is_zero x then
    if F64.ltb y F64.zero then
      S754_infinity (F64.sign_bit x && F64.is_odd_integer y)
    else S754_zero (F64.sign_bit x && F64.is_odd_integer y)
  else if F64.ltb x F64.zero && negb (F64.is_integer y) then S754_nan
  else pow_core R x y.

(** [math.pow(x, y)] ([math_pow_impl]): the interpreter settles the cases
    with an infinite or NaN argument itself; on finite arguments a NaN from
    the C library is a domain error, an infinity a domain error when [x] is
    zero and a range error otherwise. *)
Definition math_pow (a b : pyval) : result float :=
  x <- as_double a ;;
  y <- as_double b ;;
  if negb (F64.is_finite x) || negb (F64.is_finite y) then
    if F64.is_nan x then ret (if F64.eqb y F64.zero then F64.one else x)
    else if F64.is_nan y then ret (if F64.eqb x F64.one then F64.one else y)
    else if F64.is_inf x then
      let odd_y := F64.is_odd_integer y in
      if F64.ltb F64.zero y then ret (if odd_y then x else F64.abs x)
      else if F64.eqb y F64.zero then ret F64.one
      else ret (if odd_y then S754_zero (F64.sign_bit x) else F64.zero)
    else
      if F64.eqb (F64.abs x) F64.one then ret F64.one
      else if F64.ltb F64.zero y && F64.ltb F64.one (F64.abs x) then ret y
      else if F64.ltb y F64.zero && F64.ltb (F64.abs x) F64.one then
        ret (SFopp y)
      else ret F64.zero
  else
    let r := c_pow x y in
    if F64.is_nan r then raise (ValueError (Builtin math_domain_error))
    else if F64.is_inf r then
      if F64.eqb x F64.zero then raise (ValueError (Builtin math_domain_error))
      else raise (OverflowError (Builtin math_range_error))
    else ret r.

(** [math.factorial(x)] *)
Definition math_factorial (v : pyval) : result Z :=
  match v with
  | VInt n =>
      if LONG_MAX R <? n then raise (OverflowError (Builtin factorial_too_large))
      else if n <? 0 then raise (ValueError (Builtin factorial_negative))
      else ret (zfact (Z.to_nat n))
  | _ => raise (TypeError (Builtin not_an_integer))
  end.

End Math.

(* ------------------------------------------------------------------ *)
(** ** Conversions to text *)

(** [sys.int_info.default_max_str_digits]: since CPython 3.11 (and the
    security releases 3.7.14, 3.8.14, 3.9.14, 3.10.7) the decimal
    conversion of an int of more digits raises [ValueError]. *)
Definition default_max_str_digits : Z := 4300.

(** The decimal text of an int has more than [default_max_str_digits]
    digits. *)
Definition exceeds_str_digits (n : Z) : bool :=
  10 ^ default_max_str_digits <=? Z.abs n.

(** The decimal numeral of an integer, with its sign. *)
Definition decimal (n : Z) : string := NilZero.string_of_int (Z.to_int n).

(** [str(n)] for an int. *)
Definition str_int (n : Z) : result string :=
  if exceeds_str_digits n then raise (ValueError (Builtin int_str_limit))
  else ret (decimal n).

(** The character of a decimal digit. *)
Definition digit_char (d : Z) : ascii := ascii_of_nat (48 + Z.to_nat d).

(** The [p] low decimal digits of [r], most significant first. *)
Fixpoint frac_digits (p : nat) (r : Z) : string :=
  match p with
  | O => ""
  | S k => frac_digits k (r / 10) ++ String (digit_char (r mod 10)) ""
  end.

(** The integer nearest to [a / b], ties to the even one ([0 <= a], [0 < b]). *)
Definition div_half_even (a b : Z) : Z :=
  let q := a / b in
  match 2 * (a mod b) ?= b with
  | Lt => q
  | Gt => q + 1
  | Eq => if Z.even q then q else q + 1
  end.

(** [m * 2^e * 10^p] rounded to an integer: the digits a fixed-point
    rendering with [p] decimals shows. *)
Definition scaled (m : positive) (e : Z) (p : nat) : Z :=
  if 0 <=? e then Zpos m * 2 ^ e * 10 ^ Z.of_nat p
  else div_half_even (Zpos m * 10 ^ Z.of_nat p) (2 ^ (- e)).

Definition fixed_of_scaled (n : Z) (p : nat) : string :=
  let w := 10 ^ Z.of_nat p in
  decimal (n / w) ++
  match p with
  | O => ""
  | S _ => "." ++ frac_digits p (n mod w)
  end.

Definition sign_text (s : bool) : string := if s then "-" else "".

(** [format(x, ".pf")] for a float: the correctly rounded fixed-point
    rendering with [p] digits after the point. *)
Definition format_fixed (x : float) (p : nat) : string :=
  match x with
  | S754_nan => "nan"
  | S754_infinity s => sign_text s ++ "inf"
  | S754_zero s => sign_text s ++ fixed_of_scaled 0 p
  | S754_finite s m e => sign_text s ++ fixed_of_scaled (scaled m e p) p
  end.

(** The number of characters after the first decimal point of a text,
    [None] when it has no point. *)
Fixpoint decimals (s : string) : option nat :=
  match s with
  | EmptyString => None
  | String c s' =>
      if Ascii.eqb c "." then Some (String.length s') else decimals s'
  end.

(** The largest precision a format specification accepts ([INT_MAX]). *)
Definition max_format_precision : Z := 2147483647.

Section Text.

Context (R : runtime).

(** [str(v)] *)
Definition py_str (v : pyval) : result string :=
  match v with
  | VNone => ret "None"
  | VInt n => str_int n
  | VFloat f => ret (float_repr R f)
  end.

(** The f-string of line 25, [x] formatted with the specification
    [.{precision}f]: a number is rendered as a float, [None] has no such
    format. *)
Definition fstring_fixed (x : pyval) (precision : nat) : result string :=
  match x with
  | VNone => raise (TypeError (Builtin unsupported_format_string))
  | _ =>
      f <- as_double x ;;
      if Z.of_nat precision <=? max_format_precision then ret (format_fixed f precision)
      else raise (ValueError (Builtin precision_too_big))
  end.

(** [format_number] (lines 21-27): an int through [str], anything else
    through the fixed-point format, with [str] as the fallback when that
    format raises. *)
Definition format_number (x : pyval) (precision : nat) : result string :=
  if is_int x then py_str x
  else
    match fstring_fixed x precision with
    | inr s => ret s
    | inl _ => py_str x
    end.

End Text.

(* ------------------------------------------------------------------ *)
(** ** The script: helpers and session state (lines 17-42) *)

(** One dict of [st.session_state.history]. *)
Record entry : Type := {
  time : string;
  operation : string;
  inputs : pyval * pyval * pyval * string;   (* x, y, base, angle_mode *)
  entry_result : pyval;
  error : option errtext
}.

Definition history : Type := list entry.

(** [init_state]: a session starts with an empty list. *)
Definition init_state : history := [].

(** [add_history]: one dict appended at the end of the list; [now] is the
    clock reading [datetime.now()] formatted to the second. *)
Definition add_history (now : string) (op : string)
    (inp : pyval * pyval * pyval * string)
    (result_ : pyval) (error_ : option errtext) (h : history) : history :=
  (h ++ [ {| time := now; operation := op; inputs := inp;
             entry_result := result_; error := error_ |} ])%list.

(** [h[-1]] of a non-empty list. *)
Definition last_entry (h : history) : option entry :=
  match rev h with
  | [] => None
  | e :: _ => Some e
  end.

(** The two outcomes of an evaluation. *)
Inductive Outcome : Type :=
| Success (result_ : pyval)
| Failure (message : errtext).

(** What a handler shows. *)
Inductive ui : Type :=
| st_success (body : string)
| st_error (err : errtext)      (* shown after the prefix "Error: " *)
| st_info (body : string)
| st_code (body : string).

Section App.

Context (R : runtime).

(** [to_radians] and [from_radians] (lines 29-33) *)
Definition to_radians (x : pyval) (angle_mode : string) : result pyval :=
  if (angle_mode =? "Degrees")%string then
    r <- math_radians x ;; ret (VFloat r)
  else ret x.

Definition from_radians (x : pyval) (angle_mode : string) : result pyval :=
  if (angle_mode =? "Degrees")%string then
    r <- math_degrees x ;; ret (VFloat r)
  else ret x.

Definition float_result (c : result float) : result pyval :=
  r <- c ;; ret (VFloat r).

(** The guard of line 194: [op in ["arcsin", "arccos"] and not (-1.0 <= x <= 1.0)]. *)
Definition outside_unit_interval (op : string) (x : pyval) : result bool :=
  if (op =? "arcsin")%string || (op =? "arccos")%string then
    lo <- py_le (VFloat lit_minus_1) x ;;
    if lo then (hi <- py_le x (VFloat lit_1) ;; ret (negb hi))
    else ret true
  else ret false.

(** The body of the [try] up to the value of [result] (lines 149-211):
    [result] stays [None] when no branch assigns it. *)
Definition compute (group op : string) (x y base : pyval) (angle_mode : string)
    : result pyval :=
  if (group =? "Basic")%string then
    if (op =? "Add")%string then py_add x y
    else if (op =? "Subtract")%string then py_sub x y
    else if (op =? "Multiply")%string then py_mul x y
    else if (op =? "Divide")%string then
      if py_eq y (VInt 0) then
        raise (ZeroDivisionError (Text "Division by zero is undefined."))
      else py_truediv x y
    else ret VNone
  else if (group =? "Advanced")%string then
    if (op =? "Power (x^y)")%string then float_result (math_pow R x y)
    else if (op =? "Square Root")%string then
      neg <- py_lt x (VInt 0) ;;
      if neg then raise (ValueError (Text "Square root domain error: x must be ≥ 0."))
      else float_result (math_sqrt x)
    else if (op =? "Exponential (e^x)")%string then float_result (math_exp R x)
    else if (op =? "Natural Log (ln)")%string then
      nonpos <- py_le x (VInt 0) ;;
      if nonpos then raise (ValueError (Text "Log domain error: x must be > 0."))
      else float_result (math_log R x)
    else if (op =? "Log Base 10")%string then
      nonpos <- py_le x (VInt 0) ;;
      if nonpos then raise (ValueError (Text "Log domain error: x must be > 0."))
      else float_result (math_log10 R x)
    else if (op =? "Log (Custom Base)")%string then
      bad <- (nonpos <- py_le x (VInt 0) ;;
              if nonpos then ret true
              else if is_None base then ret true
              else (b_nonpos <- py_le base (VInt 0) ;;
                    if b_nonpos then ret true else ret (py_eq base (VInt 1)))) ;;
      if bad then raise (ValueError (Text "For log_b(x): x>0, b>0, b≠1."))
      else float_result (math_log_base R x base)
    else ret VNone
  else if (group =? "Trigonometry")%string then
    r <- to_radians x angle_mode ;;
    if (op =? "sin")%string then float_result (math_sin R r)
    else if (op =? "cos")%string then float_result (math_cos R r)
    else if (op =? "tan")%string then float_result (math_tan R r)
    else ret VNone
  else if (group =? "Inverse Trig")%string then
    bad <- outside_unit_interval op x ;;
    if bad then raise (ValueError (Text "Domain error: input must be in [-1, 1]."))
    else if (op =? "arcsin")%string then
      a <- math_asin R x ;; from_radians (VFloat a) angle_mode
    else if (op =? "arccos")%string then
      a <- math_acos R x ;; from_radians (VFloat a) angle_mode
    else if (op =? "arctan")%string then
      a <- math_atan R x ;; from_radians (VFloat a) angle_mode
    else ret VNone
  else if (group =? "Misc")%string then
    if (op =? "Absolute")%string then py_abs x
    else if (op =? "Factorial")%string then
      if negb (is_int x && match x with VInt n => 0 <=? n | _ => false end) then
        raise (ValueError (Text "Factorial requires a non-negative integer."))
      else (n <- math_factorial R x ;; ret (VInt n))
    else if (op =? "Percentage (x of y)")%string then
      q <- py_truediv x (VFloat lit_100) ;; py_mul q y
    else ret VNone
  else ret VNone.

(** The Evaluator of the specification: the outcome of the [try] body,
    an exception being recovered as its text ([except Exception as e:
    error = str(e)]). *)
Definition evaluate (group op : string) (x y base : pyval) (angle_mode : string)
    : Outcome :=
  match compute group op x y base angle_mode with
  | inr v => Success v
  | inl e => Failure (str_exn e)
  end.

(** [f"{group} → {op}"] *)
Definition label (group op : string) : string := group ++ " → " ++ op.

(** The Calculate handler (lines 145-227).  [now k] is the clock reading
    of the [k]-th call of [add_history] in this run of the script.  The
    entry with the result is appended before the result is formatted, and
    formatting happens inside the same [try]. *)
Definition on_calculate (now : nat -> string) (group op : string)
    (x y base : pyval) (angle_mode : string) (precision : nat) (h : history)
    : history * ui :=
  let inp := (x, y, base, angle_mode) in
  match compute group op x y base angle_mode with
  | inl e =>
      (add_history (now 0%nat) (label group op) inp VNone (Some (str_exn e)) h,
       st_error (str_exn e))
  | inr result_ =>
      let h1 := add_history (now 0%nat) (label group op) inp result_ None h in
      match format_number R result_ precision with
      | inr s => (h1, st_success ("Result: **" ++ s ++ "**"))
      | inl e =>
          (add_history (now 1%nat) (label group op) inp VNone (Some (str_exn e)) h1,
           st_error (str_exn e))
      end
  end.

(** The "Clear history" button (lines 56-58). *)
Definition on_clear_history (h : history) : history * ui :=
  ([], st_success "History cleared.").

(** The "Copy last result" button (lines 59-67); the list is not changed. *)
Definition on_copy_last_result (h : history) : result ui :=
  match last_entry h with
  | Some last_ =>
      if match error last_ with None => true | Some _ => false end
         && negb (is_None (entry_result last_))
      then s <- py_str R (entry_result last_) ;; ret (st_code s)
      else ret (st_info "Last entry has no result to copy.")
  | None => ret (st_info "No history yet.")
  end.

End App.

(* ------------------------------------------------------------------ *)
(** ** A session: the script run once per interaction *)

(** The operations offered per category (the dict [ops], lines 92-98). *)
Definition ops : list (string * list string) :=
  [ ("Basic", ["Add"; "Subtract"; "Multiply"; "Divide"]);
    ("Advanced", ["Power (x^y)"; "Square Root"; "Exponential (e^x)";
                 "Natural Log (ln)"; "Log Base 10"; "Log (Custom Base)"]);
    ("Trigonometry", ["sin"; "cos"; "tan"]);
    ("Inverse Trig", ["arcsin"; "arccos"; "arctan"]);
    ("Misc", ["Absolute"; "Factorial"; "Percentage (x of y)"]) ].

(** [(group, op)] is a pair of the dispatch table. *)
Definition in_table (group op : string) : bool :=
  existsb (fun row => (group =? fst row)%string
                      && existsb (fun o => (op =? o)%string) (snd row)) ops.

(** The interactions that touch the history. *)
Inductive event : Type :=
| Calculate (now : nat -> string) (group op : string) (x y base : pyval)
    (angle_mode : string) (precision : nat)
| ClearHistory
| CopyLastResult.

Section Session.

Context (R : runtime).

(** The history after one run of the script. *)
Definition step (h : history) (ev : event) : history :=
  match ev with
  | Calculate now group op x y base angle_mode precision =>
      fst (on_calculate R now group op x y base angle_mode precision h)
  | ClearHistory => fst (on_clear_history h)
  | CopyLastResult => h
  end.

Definition run (evs : list event) (h : history) : history :=
  fold_left step evs h.

(** The histories a session can hold. *)
Definition reachable (h : history) : Prop :=
  exists evs, h = run evs init_state.

(** The attempt ends with the decimal conversion of an int result beyond
    the interpreter's digit limit. *)
Definition overlong_result (ev : event) : bool :=
  match ev with
  | Calculate _ group op x y base angle_mode _ =>
      match compute R group op x y base angle_mode with
      | inr (VInt n) => exceeds_str_digits n
      | _ => false
      end
  | _ => false
  end.

(** The entries one Calculate attempt appends: the entry of the outcome,
    followed by an error entry when the result cannot be displayed. *)
Definition appended (ev : event) : list entry :=
  match ev with
  | Calculate now group op x y base angle_mode precision =>
      fst (on_calculate R now group op x y base angle_mode precision [])
  | _ => []
  end.

End Session.

(** The last entry can be displayed: it is not a result entry whose int
    is beyond the digit limit. *)
Definition displayable (h : history) : Prop :=
  match last_entry h with
  | Some e =>
      error e = None ->
      match entry_result e with
      | VInt n => exceeds_str_digits n = false
      | _ => True
      end
  | None => True
  end.


(* ------------------------------------------------------------------ *)
(** ** A concrete runtime

    Elementary functions that are exact at the few arguments tabulated and
    only sign-correct elsewhere; [LONG_MAX] is that of an LP64 platform.
    It instantiates the statements below at concrete inputs. *)

Definition ln_2 : float := S754_finite false 6243314768165359 (-53).
Definition ln_8 : float := S754_finite false 4682486076124019 (-51).

Definition finite_or_nan (v x : float) : float :=
  if F64.is_finite x then v else S754_nan.

Definition table_log (x : float) : float :=
  match F64.compare_Z x 1 with
  | Some Eq => F64.zero
  | Some Lt => F64.of_Z (-1)
  | Some Gt =>
      if F64.is_inf x then x
      else if F64.eqb x (F64.of_Z 2) then ln_2
      else if F64.eqb x (F64.of_Z 8) then ln_8
      else F64.one
  | None => S754_nan
  end.

Definition table_runtime : runtime := {|
  c_sin := finite_or_nan F64.zero;
  c_cos := finite_or_nan F64.one;
  c_tan := finite_or_nan F64.zero;
  c_asin := fun x => if F64.leb (F64.of_Z (-1)) x && F64.leb x F64.one
                     then F64.zero else S754_nan;
  c_acos := fun x => if F64.leb (F64.of_Z (-1)) x && F64.leb x F64.one
                     then F64.zero else S754_nan;
  c_atan := fun x => if F64.is_nan x then x else F64.zero;
  c_exp := finite_or_nan F64.one;
  c_log := table_log;
  c_log10 := table_log;
  pow_core := fun _ _ => F64.one;
  float_repr := fun x => format_fixed x 17;
  LONG_MAX := 2 ^ 63 - 1
|}.

(* ------------------------------------------------------------------ *)
(** ** The script around the handlers (lines 44-143 and 237-248) *)



(** What the number inputs of one run return: the float of the input in
    the first column, the float of the input in the second column, and the
    int of the Factorial input, which its [min_value=0] keeps from being
    negative. *)
Record entered : Type := {
  first_column : float;
  second_column : float;
  factorial_input : N
}.

(** The operands after the input section (lines 104-138): [x], [y] and
    [base] start as [None] and are assigned by the number inputs that the
    selected operation shows. *)
Definition read_inputs (group op : string) (w : entered) : pyval * pyval * pyval :=
  let c1 := VFloat (first_column w) in
  let c2 := VFloat (second_column w) in
  if (group =? "Basic")%string then (c1, c2, VNone)
  else if (group =? "Advanced")%string then
    if (op =? "Power (x^y)")%string then (c1, c2, VNone)
    else if (op =? "Square Root")%string then (c1, VNone, VNone)
    else if (op =? "Exponential (e^x)")%string then (c1, VNone, VNone)
    else if (op =? "Natural Log (ln)")%string then (c1, VNone, VNone)
    else if (op =? "Log Base 10")%string then (c1, VNone, VNone)
    else if (op =? "Log (Custom Base)")%string then (c1, VNone, c2)
    else (VNone, VNone, VNone)
  else if (group =? "Trigonometry")%string then (c1, VNone, VNone)
  else if (group =? "Inverse Trig")%string then (c1, VNone, VNone)
  else if (group =? "Misc")%string then
    if (op =? "Absolute")%string then (c1, VNone, VNone)
    else if (op =? "Factorial")%string then
      (VInt (Z.of_N (factorial_input w)), VNone, VNone)
    else if (op =? "Percentage (x of y)")%string then (c1, c2, VNone)
    else (VNone, VNone, VNone)
  else (VNone, VNone, VNone).

(** The truth value of an error text ([if item.get("error")], line 243):
    an empty string is false; the texts of the interpreter are not empty. *)
Definition truthy (t : errtext) : bool :=
  match t with
  | Text EmptyString => false
  | _ => true
  end.







Module Script.

(** [init_state] (lines 17-19): the list of [st.session_state], created
    empty when the key is absent. *)
Definition init_state (stored : option history) : history :=
  match stored with
  | Some h => h
  | None => []
  end.

Section Run.

Context (R : runtime).



End Run.

End Script.


(** ** Predicates on computations *)

(** A computation that, when it raises, raises within [P], and when it
    returns, returns within [Q]. *)
Definition outcome_in {A : Type} (P : exn -> Prop) (Q : A -> Prop)
    (c : result A) : Prop :=
  match c with
  | inl e => P e
  | inr a => Q a
  end.

Definition not_type_error (e : exn) : Prop :=
  match e with
  | TypeError _ => False
  | _ => True
  end.

Definition is_number (v : pyval) : Prop :=
  match v with
  | VNone => False
  | _ => True
  end.

Definition truthy_error (e : exn) : Prop := truthy (str_exn e) = true.

(** An entry as the Calculate handler writes it: an error text that is not
    empty and no result beside it, or no error. *)
Definition well_recorded (e : entry) : Prop :=
  match error e with
  | Some t => truthy t = true /\ entry_result e = VNone
  | None => True
  end.

(** The interactions after the last Clear history, and whether there was
    one. *)
Definition is_clear (ev : event) : bool :=
  match ev with
  | ClearHistory => true
  | _ => false
  end.

Definition has_clear (evs : list event) : bool := existsb is_clear evs.

Fixpoint since_last_clear (evs : list event) : list event :=
  match evs with
  | [] => []
  | ev :: rest =>
      if has_clear rest then since_last_clear rest
      else if is_clear ev then rest
      else ev :: rest
  end.

(** The number a text of decimal digits denotes, [None] on another
    character. *)
Fixpoint digits_value (acc : Z) (s : string) : option Z :=
  match s with
  | EmptyString => Some acc
  | String c rest =>
      let d := Z.of_nat (nat_of_ascii c) - 48 in
      if (0 <=? d) && (d <=? 9) then digits_value (10 * acc + d) rest else None
  end.

(** What the custom-base logarithm needs of the C library's [log]: on a
    finite positive argument the result is finite, and it is a zero only
    at 1. *)
Definition log_contract (R : runtime) : Prop :=
  (forall a : float,
      F64.is_finite a = true -> F64.ltb F64.zero a = true ->
      F64.is_finite (c_log R a) = true)
  /\ (forall a : float,
         F64.is_finite a = true -> F64.ltb F64.zero a = true ->
         F64.eqb_Z a 1 = false ->
         F64.is_zero (c_log R a) = false).

(** What the trigonometric branches need of the C library: finite results
    on finite arguments, and for [asin] and [acos] on [[-1, 1]]. *)
Definition trig_contract (R : runtime) : Prop :=
  (forall a : float,
      F64.is_finite a = true ->
      F64.is_finite (c_sin R a) = true
      /\ F64.is_finite (c_cos R a) = true
      /\ F64.is_finite (c_tan R a) = true)
  /\ (forall a : float,
         F64.leb lit_minus_1 a = true -> F64.leb a lit_1 = true ->
         F64.is_finite (c_asin R a) = true
         /\ F64.is_finite (c_acos R a) = true)
  /\ (forall a : float,
         F64.is_finite a = true -> F64.is_finite (c_atan R a) = true).

(* ------------------------------------------------------------------ *)
(** * Properties *)

(** ** Comparisons of a float with a small integer *)

(** A finite non-zero float is compared with 0 by its sign alone. *)
Lemma compare_Z_finite_0 (s : bool) (m : positive) (e : Z) :
  F64.compare_Z (S754_finite s m e) 0 = Some (if s then Lt else Gt).
Proof.
  unfold F64.compare_Z. f_equal.
  destruct (0 <=? e) eqn:He.
  - apply Z.leb_le in He.
    assert (0 < 2 ^ e) by (apply Z.pow_pos_nonneg; lia).
    destruct s; cbn [cond_Zopp].
    + apply Z.compare_lt_iff. nia.
    + apply Z.compare_gt_iff. nia.
  - rewrite Z.mul_0_l. now destruct s.
Qed.

Lemma py_eq_float_0 (y : float) : py_eq (VFloat y) (VInt 0) = F64.is_zero y.
Proof.
  destruct y as [s|s| |s m e]; try reflexivity.
  - now destruct s.
  - unfold py_eq, py_compare, ret. rewrite compare_Z_finite_0. now destruct s.
Qed.

Lemma eqb_zero (y : float) : F64.eqb y F64.zero = F64.is_zero y.
Proof. destruct y as [s|s| |s m e]; try reflexivity; now destruct s. Qed.

(** [x <= 0] and [x < 0] on a float operand. *)
Lemma py_le_float_0 (x : float) :
  py_le (VFloat x) (VInt 0) = ret (F64.leb x F64.zero).
Proof.
  destruct x as [s|s| |s m e]; try reflexivity.
  unfold py_le, py_compare, ret, bind. rewrite compare_Z_finite_0. now destruct s.
Qed.

Lemma py_lt_float_0 (x : float) :
  py_lt (VFloat x) (VInt 0) = ret (F64.ltb x F64.zero).
Proof.
  destruct x as [s|s| |s m e]; try reflexivity.
  unfold py_lt, py_compare, ret, bind. rewrite compare_Z_finite_0. now destruct s.
Qed.

(** ** The branches of the dispatch, one equation each *)

Section Dispatch.

Context (R : runtime).
Variables (x y base : pyval) (angle_mode : string).

Lemma compute_divide :
  compute R "Basic" "Divide" x y base angle_mode =
  if py_eq y (VInt 0)
  then raise (ZeroDivisionError (Text "Division by zero is undefined."))
  else py_truediv x y.
Proof. reflexivity. Qed.

Lemma compute_power :
  compute R "Advanced" "Power (x^y)" x y base angle_mode =
  float_result (math_pow R x y).
Proof. reflexivity. Qed.

Lemma compute_factorial :
  compute R "Misc" "Factorial" x y base angle_mode =
  if negb (is_int x && match x with VInt n => 0 <=? n | _ => false end)
  then raise (ValueError (Text "Factorial requires a non-negative integer."))
  else (n <- math_factorial R x ;; ret (VInt n)).
Proof. reflexivity. Qed.

Lemma compute_sin :
  compute R "Trigonometry" "sin" x y base angle_mode =
  (r <- to_radians x angle_mode ;; float_result (math_1 (c_sin R) false r)).
Proof. reflexivity. Qed.

Lemma compute_cos :
  compute R "Trigonometry" "cos" x y base angle_mode =
  (r <- to_radians x angle_mode ;; float_result (math_1 (c_cos R) false r)).
Proof. reflexivity. Qed.

Lemma compute_tan :
  compute R "Trigonometry" "tan" x y base angle_mode =
  (r <- to_radians x angle_mode ;; float_result (math_1 (c_tan R) false r)).
Proof. reflexivity. Qed.

Lemma compute_arcsin :
  compute R "Inverse Trig" "arcsin" x y base angle_mode =
  (bad <- outside_unit_interval "arcsin" x ;;
   if bad then raise (ValueError (Text "Domain error: input must be in [-1, 1]."))
   else (a <- math_1 (c_asin R) false x ;; from_radians (VFloat a) angle_mode)).
Proof. reflexivity. Qed.

Lemma compute_arccos :
  compute R "Inverse Trig" "arccos" x y base angle_mode =
  (bad <- outside_unit_interval "arccos" x ;;
   if bad then raise (ValueError (Text "Domain error: input must be in [-1, 1]."))
   else (a <- math_1 (c_acos R) false x ;; from_radians (VFloat a) angle_mode)).
Proof. reflexivity. Qed.

Lemma compute_arctan :
  compute R "Inverse Trig" "arctan" x y base angle_mode =
  (a <- math_1 (c_atan R) false x ;; from_radians (VFloat a) angle_mode).
Proof. reflexivity. Qed.

Lemma compute_log_custom_base :
  compute R "Advanced" "Log (Custom Base)" x y base angle_mode =
  (bad <- (nonpos <- py_le x (VInt 0) ;;
           if nonpos then ret true
           else if is_None base then ret true
           else (b_nonpos <- py_le base (VInt 0) ;;
                 if b_nonpos then ret true else ret (py_eq base (VInt 1)))) ;;
   if bad then raise (ValueError (Text "For log_b(x): x>0, b>0, b≠1."))
   else float_result (math_log_base R x base)).
Proof. reflexivity. Qed.

End Dispatch.

(** ** Division *)

(** C1.  On float operands [Divide] fails with the message "Division by
    zero is undefined." exactly when [y] is a zero (of either sign), and
    otherwise succeeds with the binary64 quotient [x / y]; dividing 5 by 0
    is that failure. *)
Theorem divide_outcome (R : runtime) :
  (forall (x y : float) (base : pyval) (angle_mode : string),
      evaluate R "Basic" "Divide" (VFloat x) (VFloat y) base angle_mode =
      if F64.is_zero y
      then Failure (Text "Division by zero is undefined.")
      else Success (VFloat (F64.div x y)))
  /\ (forall (base : pyval) (angle_mode : string),
         evaluate R "Basic" "Divide" (VFloat (F64.of_Z 5)) (VFloat (F64.of_Z 0))
           base angle_mode
         = Failure (Text "Division by zero is undefined.")).
Proof.
  assert (H : forall (x y : float) (base : pyval) (angle_mode : string),
             evaluate R "Basic" "Divide" (VFloat x) (VFloat y) base angle_mode =
             if F64.is_zero y
             then Failure (Text "Division by zero is undefined.")
             else Success (VFloat (F64.div x y))).
  { intros x y base angle_mode. unfold evaluate.
    rewrite compute_divide, py_eq_float_0.
    destruct (F64.is_zero y) eqn:Hy; [reflexivity|].
    cbn [py_truediv as_double bind ret]. unfold float_truediv.
    rewrite eqb_zero, Hy. reflexivity. }
  split; [exact H|].
  intros base angle_mode. apply H.
Qed.

(** ** Factorial *)

Lemma zfact_fact (n : nat) : zfact n = Z.of_nat (fact n).
Proof.
  induction n as [|k IH]; [reflexivity|].
  change (zfact (S k)) with (Z.of_nat (S k) * zfact k).
  change (fact (S k)) with (S k * fact k)%nat.
  rewrite IH, Nat2Z.inj_mul. reflexivity.
Qed.

(** C2 (amended).  [Factorial] succeeds with the exact integer [x!] when
    [x] is an [int] with [0 <= x <= LONG_MAX]; every [float] operand, also
    an integer-valued one such as 5.0, and every negative [int] give the
    failure "Factorial requires a non-negative integer.".  So 5 gives 120,
    and -1, 3.5 and 5.0 give that failure. *)
Theorem factorial_outcome (R : runtime) (y base : pyval) (angle_mode : string)
    (Hlong : 5 <= LONG_MAX R) :
  (forall x : pyval,
      evaluate R "Misc" "Factorial" x y base angle_mode =
      match x with
      | VInt n =>
          if n <? 0 then Failure (Text "Factorial requires a non-negative integer.")
          else if LONG_MAX R <? n then Failure (Builtin factorial_too_large)
          else Success (VInt (Z.of_nat (fact (Z.to_nat n))))
      | _ => Failure (Text "Factorial requires a non-negative integer.")
      end)
  /\ evaluate R "Misc" "Factorial" (VInt 5) y base angle_mode = Success (VInt 120)
  /\ evaluate R "Misc" "Factorial" (VInt (-1)) y base angle_mode
     = Failure (Text "Factorial requires a non-negative integer.")
  /\ evaluate R "Misc" "Factorial" (VFloat (F64.div (F64.of_Z 7) (F64.of_Z 2)))
       y base angle_mode
     = Failure (Text "Factorial requires a non-negative integer.")
  /\ evaluate R "Misc" "Factorial" (VFloat (F64.of_Z 5)) y base angle_mode
     = Failure (Text "Factorial requires a non-negative integer.").
Proof.
  assert (H : forall x : pyval,
      evaluate R "Misc" "Factorial" x y base angle_mode =
      match x with
      | VInt n =>
          if n <? 0 then Failure (Text "Factorial requires a non-negative integer.")
          else if LONG_MAX R <? n then Failure (Builtin factorial_too_large)
          else Success (VInt (Z.of_nat (fact (Z.to_nat n))))
      | _ => Failure (Text "Factorial requires a non-negative integer.")
      end).
  { intros x. unfold evaluate. rewrite compute_factorial.
    destruct x as [|n|f]; try reflexivity.
    cbn [is_int andb]. destruct (n <? 0) eqn:Hneg.
    - apply Z.ltb_lt in Hneg.
      assert (Hge : (0 <=? n) = false) by (apply Z.leb_gt; lia).
      rewrite Hge. reflexivity.
    - apply Z.ltb_ge in Hneg.
      assert (Hge : (0 <=? n) = true) by (apply Z.leb_le; lia).
      rewrite Hge. cbn [negb]. unfold math_factorial.
      destruct (LONG_MAX R <? n) eqn:Hbig; [reflexivity|].
      assert (Hn : (n <? 0) = false) by (apply Z.ltb_ge; lia).
      rewrite Hn. cbn [bind ret]. now rewrite zfact_fact. }
  split; [exact H|].
  split.
  { rewrite H.
    assert (Hbig : (LONG_MAX R <? 5) = false) by (apply Z.ltb_ge; lia).
    cbn [Z.ltb Z.compare]. rewrite Hbig. reflexivity. }
  repeat split; rewrite H; reflexivity.
Qed.

Lemma factorial_outcome_at_5 :
  5 <= LONG_MAX table_runtime
  /\ evaluate table_runtime "Misc" "Factorial" (VInt 5) VNone VNone "Degrees"
     = Success (VInt 120).
Proof.
  assert (H : 5 <= LONG_MAX table_runtime) by (vm_compute; discriminate).
  split; [exact H|].
  exact (proj1 (proj2 (factorial_outcome table_runtime VNone VNone "Degrees" H))).
Defined.

(** C2 as stated fails: the float 5.0 is a non-negative integer, and
    [Factorial] rejects it. *)
Lemma factorial_rejects_integral_float :
  F64.compare_Z (F64.of_Z 5) 5 = Some Eq
  /\ evaluate table_runtime "Misc" "Factorial" (VFloat (F64.of_Z 5)) VNone VNone
       "Degrees"
     = Failure (Text "Factorial requires a non-negative integer.").
Proof. split; reflexivity. Qed.

(** ** Power *)

(** [math.pow] on two finite floats is decided by the C library's result. *)
Lemma math_pow_finite (R : runtime) (x y : float) :
  F64.is_finite x = true -> F64.is_finite y = true ->
  math_pow R (VFloat x) (VFloat y) =
  if F64.is_nan (c_pow R x y) then raise (ValueError (Builtin math_domain_error))
  else if F64.is_inf (c_pow R x y) then
    if F64.is_zero x then raise (ValueError (Builtin math_domain_error))
    else raise (OverflowError (Builtin math_range_error))
  else ret (c_pow R x y).
Proof.
  intros Hx Hy. unfold math_pow. cbn [as_double bind ret].
  rewrite Hx, Hy. cbn [negb orb]. now rewrite eqb_zero.
Qed.

(** The C library's [pow] of a zero and a negative finite exponent is an
    infinity (C99 F.10.4.4). *)
Lemma c_pow_zero_negative (R : runtime) (s : bool) (m : positive) (e : Z) :
  F64.is_inf (c_pow R (S754_zero s) (S754_finite true m e)) = true.
Proof. reflexivity. Qed.

(** C8 (amended).  The handler has no guard of its own for [Power]; on
    finite floats the outcome is the one of [math.pow]: success with the C
    library's [pow(x, y)] when that is finite, the math module's domain
    error when it is NaN or when [x] is zero and the result infinite, and
    its range error on overflow.  In particular a zero raised to a negative
    power is a failure. *)
Theorem power_outcome (R : runtime) (x y : float) (base : pyval)
    (angle_mode : string)
    (Hx : F64.is_finite x = true) (Hy : F64.is_finite y = true) :
  evaluate R "Advanced" "Power (x^y)" (VFloat x) (VFloat y) base angle_mode =
    (if F64.is_nan (c_pow R x y) then Failure (Builtin math_domain_error)
     else if F64.is_inf (c_pow R x y) then
       if F64.is_zero x then Failure (Builtin math_domain_error)
       else Failure (Builtin math_range_error)
     else Success (VFloat (c_pow R x y)))
  /\ (F64.is_zero x = true -> F64.ltb y F64.zero = true ->
      evaluate R "Advanced" "Power (x^y)" (VFloat x) (VFloat y) base angle_mode
      = Failure (Builtin math_domain_error)).
Proof.
  assert (H : evaluate R "Advanced" "Power (x^y)" (VFloat x) (VFloat y) base
                angle_mode =
              (if F64.is_nan (c_pow R x y) then Failure (Builtin math_domain_error)
               else if F64.is_inf (c_pow R x y) then
                 if F64.is_zero x then Failure (Builtin math_domain_error)
                 else Failure (Builtin math_range_error)
               else Success (VFloat (c_pow R x y)))).
  { unfold evaluate. rewrite compute_power, math_pow_finite by assumption.
    unfold float_result.
    destruct (F64.is_nan (c_pow R x y)); [reflexivity|].
    destruct (F64.is_inf (c_pow R x y)); [|reflexivity].
    now destruct (F64.is_zero x). }
  split; [exact H|].
  intros Hz Hneg. rewrite H.
  destruct x as [s|s| |s m e]; try discriminate.
  destruct y as [s'|s'| |s' m' e']; try discriminate.
  destruct s'; [|discriminate]. reflexivity.
Qed.

Lemma power_outcome_at_5_0 :
  evaluate table_runtime "Advanced" "Power (x^y)" (VFloat (F64.of_Z 5))
    (VFloat (F64.of_Z 0)) VNone "Degrees"
  = Success (VFloat (F64.of_Z 1)).
Proof.
  exact (proj1 (power_outcome table_runtime (F64.of_Z 5) (F64.of_Z 0) VNone
                  "Degrees" eq_refl eq_refl)).
Defined.

(** C8 as stated fails: 0 to the power -1 is a failure. *)
Lemma power_zero_to_minus_one_fails :
  evaluate table_runtime "Advanced" "Power (x^y)" (VFloat (F64.of_Z 0))
    (VFloat (F64.of_Z (-1))) VNone "Degrees"
  = Failure (Builtin math_domain_error).
Proof. reflexivity. Qed.

(** ** Pairs outside the dispatch table *)

Ltac case_eqb :=
  match goal with
  | |- context [String.eqb ?a ?b] => destruct (String.eqb a b) eqn:?
  end.

Ltac clash :=
  match goal with
  | H1 : String.eqb ?g ?a = true, H2 : String.eqb ?g ?b = true |- _ =>
      apply String.eqb_eq in H1; rewrite H1 in H2; discriminate H2
  end.

(** No branch assigns [result] for such a pair; only the Trigonometry
    category has code before its branches (the conversion of [x]). *)
Lemma compute_unknown (R : runtime) (group op : string) (x y base : pyval)
    (angle_mode : string) :
  in_table group op = false ->
  compute R group op x y base angle_mode =
    if (group =? "Trigonometry")%string
    then (_ <- to_radians x angle_mode ;; ret VNone)
    else ret VNone.
Proof.
  unfold in_table, ops. cbn [existsb fst snd]. intros H.
  unfold compute, outside_unit_interval.
  repeat (case_eqb; cbn [andb orb] in H; try discriminate H; try reflexivity;
          try clash).
  all: try (destruct (to_radians x angle_mode); reflexivity).
Qed.

Lemma to_radians_float (f : float) (angle_mode : string) :
  to_radians (VFloat f) angle_mode =
  ret (VFloat (if (angle_mode =? "Degrees")%string then F64.mul f degToRad else f)).
Proof. unfold to_radians. now destruct (angle_mode =? "Degrees")%string. Qed.

Lemma format_number_None (R : runtime) (precision : nat) :
  format_number R VNone precision = ret "None".
Proof. reflexivity. Qed.

(** C4 (amended).  A pair outside the dispatch table is not rejected:
    [evaluate] returns [Success] with the result [None] (in the
    Trigonometry category after the conversion of [x], whose exception, if
    any, is the failure).  On a float [x] the handler records one entry
    with result [None] and no error and shows "Result: **None**"; nothing
    crashes and no "unknown operation" failure exists. *)
Theorem unknown_operation_outcome (R : runtime) (now : nat -> string)
    (group op : string) (x y base : pyval) (angle_mode : string)
    (precision : nat) (h : history)
    (Hunknown : in_table group op = false) :
  evaluate R group op x y base angle_mode =
    (if (group =? "Trigonometry")%string
     then match to_radians x angle_mode with
          | inl e => Failure (str_exn e)
          | inr _ => Success VNone
          end
     else Success VNone)
  /\ (forall f : float, x = VFloat f ->
      evaluate R group op x y base angle_mode = Success VNone
      /\ on_calculate R now group op x y base angle_mode precision h
         = (add_history (now 0%nat) (label group op) (x, y, base, angle_mode)
              VNone None h,
            st_success "Result: **None**")).
Proof.
  pose proof (compute_unknown R group op x y base angle_mode Hunknown) as Hc.
  split.
  - unfold evaluate. rewrite Hc.
    destruct (group =? "Trigonometry")%string; [|reflexivity].
    now destruct (to_radians x angle_mode).
  - intros f ->.
    assert (Hn : compute R group op (VFloat f) y base angle_mode = ret VNone).
    { rewrite Hc. rewrite to_radians_float.
      now destruct (group =? "Trigonometry")%string. }
    split.
    + unfold evaluate. now rewrite Hn.
    + unfold on_calculate. rewrite Hn. unfold ret.
      rewrite format_number_None. reflexivity.
Qed.

Lemma unknown_operation_outcome_at_modulo :
  in_table "Basic" "Modulo" = false
  /\ evaluate table_runtime "Basic" "Modulo" (VFloat (F64.of_Z 5))
       (VFloat (F64.of_Z 2)) VNone "Degrees"
     = Success VNone.
Proof.
  split; [reflexivity|].
  exact (proj1 (proj2 (unknown_operation_outcome table_runtime (fun _ => "")
                         "Basic" "Modulo" (VFloat (F64.of_Z 5))
                         (VFloat (F64.of_Z 2)) VNone "Degrees" 6 [] eq_refl)
                  (F64.of_Z 5) eq_refl)).
Defined.

(** C4 as stated fails: a pair outside the table yields a [Success], with
    the result [None], and not a [Failure]. *)
Lemma unknown_operation_is_not_rejected :
  in_table "Basic" "Modulo" = false
  /\ evaluate table_runtime "Basic" "Modulo" (VFloat (F64.of_Z 5))
       (VFloat (F64.of_Z 2)) VNone "Degrees"
     = Success VNone
  /\ snd (on_calculate table_runtime (fun _ => "") "Basic" "Modulo"
            (VFloat (F64.of_Z 5)) (VFloat (F64.of_Z 2)) VNone "Degrees" 6 [])
     = st_success "Result: **None**".
Proof. repeat split; reflexivity. Qed.

(** ** Logarithm to a custom base *)

Lemma py_eq_float_int (b : float) (n : Z) :
  py_eq (VFloat b) (VInt n) = F64.eqb_Z b n.
Proof. reflexivity. Qed.

Lemma leb_zero_finite (x : float) :
  F64.is_finite x = true -> F64.leb x F64.zero = negb (F64.ltb F64.zero x).
Proof. destruct x as [s|s| |s m e]; try discriminate; now destruct s. Qed.

Lemma finite_not_nan_inf (r : float) :
  F64.is_finite r = true -> F64.is_nan r = false /\ F64.is_inf r = false.
Proof. destruct r; try discriminate; now split. Qed.

(** [math.log] of a finite positive float is the C library's [log]. *)
Lemma math_log_positive (R : runtime) (a : float) :
  F64.is_finite a = true -> F64.ltb F64.zero a = true ->
  F64.is_finite (c_log R a) = true ->
  math_log R (VFloat a) = ret (c_log R a).
Proof.
  intros Ha Hpos Hr. unfold math_log, loghelper, math_1.
  cbn [as_double bind ret]. unfold m_log. rewrite Ha, Hpos.
  destruct (finite_not_nan_inf _ Hr) as [Hn Hi]. now rewrite Hn, Hi.
Qed.

(** The guard of line 179 on two finite floats. *)
Lemma log_base_guard (x b : float) :
  F64.is_finite x = true -> F64.is_finite b = true ->
  (nonpos <- py_le (VFloat x) (VInt 0) ;;
   if nonpos then ret true
   else if is_None (VFloat b) then ret true
   else (b_nonpos <- py_le (VFloat b) (VInt 0) ;;
         if b_nonpos then ret true else ret (py_eq (VFloat b) (VInt 1))))
  = ret (negb (F64.ltb F64.zero x && F64.ltb F64.zero b && negb (F64.eqb_Z b 1))).
Proof.
  intros Hx Hb. rewrite !py_le_float_0, py_eq_float_int.
  cbn [bind ret is_None]. rewrite !leb_zero_finite by assumption.
  destruct (F64.ltb F64.zero x), (F64.ltb F64.zero b), (F64.eqb_Z b 1);
    reflexivity.
Qed.

Lemma table_log_contract : log_contract table_runtime.
Proof.
  split; intros a Ha Hpos; cbn [c_log table_runtime]; unfold table_log.
  - destruct a as [s|s| |s m e]; try discriminate.
    unfold F64.compare_Z. cbn [F64.is_inf].
    destruct (if 0 <=? e then _ else _); try reflexivity.
    destruct (F64.eqb (S754_finite s m e) (F64.of_Z 2)); [reflexivity|].
    now destruct (F64.eqb (S754_finite s m e) (F64.of_Z 8)).
  - unfold F64.eqb_Z. intros Hne.
    destruct a as [s|s| |s m e]; try discriminate.
    unfold F64.compare_Z in *. cbn [F64.is_inf].
    destruct (if 0 <=? e then _ else _); try discriminate; try reflexivity.
    destruct (F64.eqb (S754_finite s m e) (F64.of_Z 2)); [reflexivity|].
    now destruct (F64.eqb (S754_finite s m e) (F64.of_Z 8)).
Qed.

(** C3.  With a C library whose [log] is finite on finite positive
    arguments and zero only at 1, [Log (Custom Base)] on finite floats
    succeeds, with the quotient [log(x) / log(base)], exactly when [x > 0],
    [base > 0] and [base <> 1], and fails with the message
    "For log_b(x): x>0, b>0, b≠1." otherwise.  When [log 8] and [log 2] are
    the correctly rounded logarithms, [x = 8], [base = 2] gives 3; the base 1
    gives the failure. *)
Theorem log_custom_base_outcome (R : runtime) (Hlog : log_contract R) :
  (forall (x b : float) (y : pyval) (angle_mode : string),
      F64.is_finite x = true -> F64.is_finite b = true ->
      evaluate R "Advanced" "Log (Custom Base)" (VFloat x) y (VFloat b) angle_mode =
      if F64.ltb F64.zero x && F64.ltb F64.zero b && negb (F64.eqb_Z b 1)
      then Success (VFloat (F64.div (c_log R x) (c_log R b)))
      else Failure (Text "For log_b(x): x>0, b>0, b≠1."))
  /\ (forall (y : pyval) (angle_mode : string),
         c_log R (F64.of_Z 8) = ln_8 -> c_log R (F64.of_Z 2) = ln_2 ->
         evaluate R "Advanced" "Log (Custom Base)" (VFloat (F64.of_Z 8)) y
           (VFloat (F64.of_Z 2)) angle_mode
         = Success (VFloat (F64.of_Z 3)))
  /\ (forall (y : pyval) (angle_mode : string),
         evaluate R "Advanced" "Log (Custom Base)" (VFloat (F64.of_Z 8)) y
           (VFloat (F64.of_Z 1)) angle_mode
         = Failure (Text "For log_b(x): x>0, b>0, b≠1.")).
Proof.
  destruct Hlog as [Hfin Hnz].
  assert (H : forall (x b : float) (y : pyval) (angle_mode : string),
      F64.is_finite x = true -> F64.is_finite b = true ->
      evaluate R "Advanced" "Log (Custom Base)" (VFloat x) y (VFloat b) angle_mode =
      if F64.ltb F64.zero x && F64.ltb F64.zero b && negb (F64.eqb_Z b 1)
      then Success (VFloat (F64.div (c_log R x) (c_log R b)))
      else Failure (Text "For log_b(x): x>0, b>0, b≠1.")).
  { intros x b y angle_mode Hx Hb. unfold evaluate.
    rewrite compute_log_custom_base.
    rewrite log_base_guard by assumption. cbn [bind ret].
    destruct (F64.ltb F64.zero x) eqn:Hxp; [|reflexivity].
    destruct (F64.ltb F64.zero b) eqn:Hbp; [|reflexivity].
    destruct (F64.eqb_Z b 1) eqn:Hb1; [reflexivity|].
    cbn [andb negb]. unfold float_result, math_log_base.
    rewrite (math_log_positive R x Hx Hxp (Hfin x Hx Hxp)).
    rewrite (math_log_positive R b Hb Hbp (Hfin b Hb Hbp)).
    cbn [bind ret]. unfold float_truediv.
    rewrite eqb_zero, (Hnz b Hb Hbp Hb1). reflexivity. }
  split; [exact H|]. split.
  - intros y angle_mode H8 H2. rewrite H by reflexivity.
    cbn [andb negb]. change (F64.ltb F64.zero (F64.of_Z 8)) with true.
    change (F64.ltb F64.zero (F64.of_Z 2)) with true.
    change (F64.eqb_Z (F64.of_Z 2) 1) with false. cbn [andb negb].
    rewrite H8, H2. reflexivity.
  - intros y angle_mode. rewrite H by reflexivity. reflexivity.
Qed.

Lemma log_custom_base_outcome_at_8_2 :
  log_contract table_runtime
  /\ evaluate table_runtime "Advanced" "Log (Custom Base)" (VFloat (F64.of_Z 8))
       VNone (VFloat (F64.of_Z 2)) "Degrees"
     = Success (VFloat (F64.of_Z 3)).
Proof.
  split; [exact table_log_contract|].
  exact (proj1 (proj2 (log_custom_base_outcome table_runtime table_log_contract))
           VNone "Degrees" eq_refl eq_refl).
Defined.

(** ** Rounding to binary64 below the overflow threshold

    [binary_round_aux] shifts a mantissa to 53 bits, rounds it to nearest
    even and shifts once more if the rounding carried.  A mantissa whose
    value is below [2^1023] therefore rounds to a finite float. *)

Lemma digits2_pos_bounds (p : positive) :
  2 ^ (Zpos (digits2_pos p) - 1) <= Zpos p < 2 ^ Zpos (digits2_pos p).
Proof.
  induction p as [p IH|p IH|]; cbn [digits2_pos].
  - rewrite Pos2Z.inj_succ.
    replace (Z.succ (Zpos (digits2_pos p)) - 1) with (Z.succ (Zpos (digits2_pos p) - 1)) by lia.
    rewrite !Z.pow_succ_r by lia. lia.
  - rewrite Pos2Z.inj_succ.
    replace (Z.succ (Zpos (digits2_pos p)) - 1) with (Z.succ (Zpos (digits2_pos p) - 1)) by lia.
    rewrite !Z.pow_succ_r by lia. lia.
  - cbn. lia.
Qed.

Lemma Zdigits2_le (m k : Z) : 0 <= m -> 0 <= k -> m < 2 ^ k -> Zdigits2 m <= k.
Proof.
  intros Hm Hk Hlt. destruct m as [|p|p]; cbn [Zdigits2]; [lia| |lia].
  destruct (digits2_pos_bounds p) as [Hlo _].
  destruct (Z.le_gt_cases (Zpos (digits2_pos p)) k) as [H|H]; [exact H|].
  assert (2 ^ k <= 2 ^ (Zpos (digits2_pos p) - 1)) by (apply Z.pow_le_mono_r; lia).
  lia.
Qed.

Lemma Zdigits2_lt_pow (m : Z) : 0 <= m -> m < 2 ^ Zdigits2 m.
Proof.
  intros Hm. destruct m as [|p|p]; cbn [Zdigits2]; [cbn; lia| |lia].
  apply digits2_pos_bounds.
Qed.

Lemma shr_1_bounds (mrs : shr_record) :
  0 <= shr_m mrs -> 0 <= shr_m (shr_1 mrs) /\ 2 * shr_m (shr_1 mrs) <= shr_m mrs.
Proof.
  destruct mrs as [m r s]. cbn [shr_m]. intros Hm.
  destruct m as [|[p|p|]|p]; cbn [shr_1 shr_m]; lia.
Qed.

Lemma iter_shr_1_bounds (p : positive) :
  forall mrs : shr_record,
    0 <= shr_m mrs ->
    0 <= shr_m (iter_pos shr_1 p mrs)
    /\ 2 ^ Zpos p * shr_m (iter_pos shr_1 p mrs) <= shr_m mrs.
Proof.
  induction p as [p IH|p IH|]; intros mrs Hm; cbn [iter_pos].
  - destruct (shr_1_bounds mrs Hm) as [H0 H1].
    destruct (IH _ H0) as [H2 H3]. destruct (IH _ H2) as [H4 H5].
    split; [exact H4|].
    assert (E : 2 ^ Zpos p~1 = 2 * (2 ^ Zpos p * 2 ^ Zpos p)).
    { rewrite <- Z.pow_add_r, <- Z.pow_succ_r by lia. f_equal. lia. }
    rewrite E.
    assert (0 < 2 ^ Zpos p) by (apply Z.pow_pos_nonneg; lia). nia.
  - destruct (IH _ Hm) as [H2 H3]. destruct (IH _ H2) as [H4 H5].
    split; [exact H4|].
    assert (E : 2 ^ Zpos p~0 = 2 ^ Zpos p * 2 ^ Zpos p).
    { rewrite <- Z.pow_add_r by lia. f_equal. lia. }
    rewrite E.
    assert (0 < 2 ^ Zpos p) by (apply Z.pow_pos_nonneg; lia). nia.
  - destruct (shr_1_bounds mrs Hm) as [H0 H1]. split; [exact H0|].
    change (2 ^ 1) with 2. lia.
Qed.

Lemma fexp_eq (e : Z) : fexp F64.prec F64.emax e = Z.max (e - 53) (-1074).
Proof. reflexivity. Qed.

Lemma shr_record_of_loc_m (m : Z) (l : location) : shr_m (shr_record_of_loc m l) = m.
Proof. destruct l as [|[| |]]; reflexivity. Qed.

(** After the first shift the mantissa fits 53 bits. *)
Lemma shr_fexp_bounds (m e : Z) (l : location) :
  0 <= m -> e <= 970 -> Zdigits2 m + e <= 1023 ->
  0 <= shr_m (fst (shr_fexp F64.prec F64.emax m e l)) < 2 ^ 53
  /\ snd (shr_fexp F64.prec F64.emax m e l) <= 970.
Proof.
  intros Hm He Hd. unfold shr_fexp, shr. rewrite fexp_eq.
  pose proof (Zdigits2_lt_pow m Hm) as Hlt.
  assert (Hd0 : 0 <= Zdigits2 m) by (destruct m; cbn; lia).
  destruct (Z.max (Zdigits2 m + e - 53) (-1074) - e) as [|p|p] eqn:Hp;
    cbn [fst snd].
  - rewrite shr_record_of_loc_m. split; [|lia]. split; [lia|].
    assert (2 ^ Zdigits2 m <= 2 ^ 53) by (apply Z.pow_le_mono_r; lia). lia.
  - destruct (iter_shr_1_bounds p (shr_record_of_loc m l)) as [H0 H1].
    { rewrite shr_record_of_loc_m. lia. }
    rewrite shr_record_of_loc_m in H1. split; [|lia]. split; [exact H0|].
    set (q := shr_m (iter_pos shr_1 p (shr_record_of_loc m l))) in *.
    destruct (Z.lt_ge_cases q (2 ^ 53)) as [Hq|Hq]; [exact Hq|exfalso].
    assert (2 ^ Zdigits2 m <= 2 ^ (Zpos p + 53)) by (apply Z.pow_le_mono_r; lia).
    rewrite Z.pow_add_r in H by lia.
    assert (0 < 2 ^ Zpos p) by (apply Z.pow_pos_nonneg; lia). nia.
  - rewrite shr_record_of_loc_m. split; [|lia]. split; [lia|].
    assert (2 ^ Zdigits2 m <= 2 ^ 53) by (apply Z.pow_le_mono_r; lia). lia.
Qed.

Lemma round_nearest_even_bounds (m : Z) (l : location) :
  m <= round_nearest_even m l <= m + 1.
Proof. destruct l as [|[| |]]; cbn [round_nearest_even]; try lia. destruct (Z.even m); lia. Qed.

(** After the second shift the exponent is at most 971. *)
Lemma shr_fexp_second (m e : Z) :
  0 <= m <= 2 ^ 53 -> e <= 970 ->
  0 <= shr_m (fst (shr_fexp F64.prec F64.emax m e loc_Exact))
  /\ snd (shr_fexp F64.prec F64.emax m e loc_Exact) <= 971.
Proof.
  intros Hm He. unfold shr_fexp, shr. rewrite fexp_eq.
  assert (Hd : Zdigits2 m <= 54).
  { apply Zdigits2_le; lia. }
  destruct (Z.max (Zdigits2 m + e - 53) (-1074) - e) as [|p|p] eqn:Hp;
    cbn [fst snd shr_record_of_loc shr_m]; try lia.
  destruct (iter_shr_1_bounds p {| shr_m := m; shr_r := false; shr_s := false |}) as [H0 H1].
  { cbn. lia. }
  split; [exact H0|lia].
Qed.

Lemma binary_round_aux_finite (sx : bool) (mx ex : Z) (lx : location) :
  0 <= mx -> ex <= 970 -> Zdigits2 mx + ex <= 1023 ->
  match binary_round_aux F64.prec F64.emax sx mx ex lx with
  | S754_zero _ | S754_finite _ _ _ => True
  | _ => False
  end.
Proof.
  intros Hm He Hd. unfold binary_round_aux.
  pose proof (shr_fexp_bounds mx ex lx Hm He Hd) as [Hb1 Hb2].
  destruct (shr_fexp F64.prec F64.emax mx ex lx) as [mrs' e']. cbn [fst snd] in *.
  pose proof (round_nearest_even_bounds (shr_m mrs') (loc_of_shr_record mrs')) as Hr.
  pose proof (shr_fexp_second (round_nearest_even (shr_m mrs') (loc_of_shr_record mrs')) e') as Hs.
  destruct (shr_fexp F64.prec F64.emax (round_nearest_even (shr_m mrs') (loc_of_shr_record mrs')) e' loc_Exact)
    as [mrs'' e'']. cbn [fst snd] in *.
  destruct Hs as [Hs1 Hs2]; [lia|lia|].
  destruct (shr_m mrs'') as [|p|p]; [exact I| |lia].
  change (F64.emax - F64.prec) with 971.
  destruct (Z.leb_spec e'' 971); [exact I|lia].
Qed.

Lemma well_formed_finite_bounds (s : bool) (m : positive) (e : Z) :
  F64.well_formed (S754_finite s m e) = true ->
  Zpos (digits2_pos m) <= 53 /\ e <= 971.
Proof.
  unfold F64.well_formed, valid_binary, bounded, canonical_mantissa.
  rewrite fexp_eq. intros H. apply andb_prop in H. destruct H as [Hc He].
  apply Z.eqb_eq in Hc. apply Z.leb_le in He.
  change (F64.emax - F64.prec) with 971 in He. lia.
Qed.

(** Converting a binary64 angle from degrees to radians never overflows. *)
Lemma mul_degToRad_finite (x : float) :
  F64.well_formed x = true -> F64.is_finite x = true ->
  F64.is_finite (F64.mul x degToRad) = true.
Proof.
  intros Hwf Hfin. destruct x as [s|s| |s m e]; try discriminate.
  - reflexivity.
  - destruct (well_formed_finite_bounds s m e Hwf) as [Hd He].
    change degToRad with (S754_finite false 5030569068109113 (-58)).
    unfold F64.mul, SFmul.
    pose proof (binary_round_aux_finite (xorb s false)
                  (Zpos (m * 5030569068109113)) (e + -58) loc_Exact) as H.
    destruct (binary_round_aux F64.prec F64.emax (xorb s false)
                (Zpos (m * 5030569068109113)) (e + -58) loc_Exact);
      try reflexivity; exfalso; apply H; try lia.
    all: assert (Hm : Zdigits2 (Zpos (m * 5030569068109113))
                      <= Zpos (digits2_pos m) + 53);
      [ apply Zdigits2_le; try lia;
        rewrite Pos2Z.inj_mul, Z.pow_add_r by lia;
        pose proof (digits2_pos_bounds m); nia
      | lia ].
Qed.

(** ** Angle conversion *)

Lemma math_1_finite (func : float -> float) (can_overflow : bool) (a : float) :
  F64.is_finite (func a) = true ->
  math_1 func can_overflow (VFloat a) = ret (func a).
Proof.
  intros Hr. unfold math_1. cbn [as_double bind ret].
  destruct (finite_not_nan_inf _ Hr) as [Hn Hi]. now rewrite Hn, Hi.
Qed.

(** A trigonometric branch: the angle is converted, then the function
    applied. *)
Lemma forward_branch (func : float -> float) (x : float) (angle_mode : string) :
  (forall a : float, F64.is_finite a = true -> F64.is_finite (func a) = true) ->
  F64.well_formed x = true -> F64.is_finite x = true ->
  (r <- to_radians (VFloat x) angle_mode ;; float_result (math_1 func false r))
  = ret (VFloat (func (if (angle_mode =? "Degrees")%string
                       then F64.mul x degToRad else x))).
Proof.
  intros Hf Hwf Hx. rewrite to_radians_float. cbn [bind ret].
  unfold float_result. rewrite math_1_finite; [reflexivity|].
  apply Hf. destruct (angle_mode =? "Degrees")%string; [|exact Hx].
  now apply mul_degToRad_finite.
Qed.

(** An inverse trigonometric branch: the function is applied, then its
    result converted. *)
Lemma inverse_branch (func : float -> float) (x : float) (angle_mode : string) :
  F64.is_finite (func x) = true ->
  (a <- math_1 func false (VFloat x) ;; from_radians (VFloat a) angle_mode)
  = ret (VFloat (if (angle_mode =? "Degrees")%string
                 then F64.mul (func x) radToDeg else func x)).
Proof.
  intros Hf. rewrite math_1_finite by exact Hf. cbn [bind ret].
  unfold from_radians. now destruct (angle_mode =? "Degrees")%string.
Qed.

Lemma outside_unit_interval_float (op : string) (x : float) :
  outside_unit_interval op (VFloat x) =
  ret (((op =? "arcsin")%string || (op =? "arccos")%string)
       && negb (F64.leb lit_minus_1 x && F64.leb x lit_1)).
Proof.
  unfold outside_unit_interval.
  destruct ((op =? "arcsin")%string || (op =? "arccos")%string); [|reflexivity].
  change (py_le (VFloat lit_minus_1) (VFloat x)) with (ret (F64.leb lit_minus_1 x)).
  change (py_le (VFloat x) (VFloat lit_1)) with (ret (F64.leb x lit_1)).
  cbn [bind ret andb]. now destruct (F64.leb lit_minus_1 x).
Qed.

Lemma table_trig_contract : trig_contract table_runtime.
Proof.
  repeat split; cbn [c_sin c_cos c_tan c_asin c_acos c_atan table_runtime].
  1-3: unfold finite_or_nan; now rewrite H.
  1-2: change (F64.of_Z (-1)) with lit_minus_1; change F64.one with lit_1;
       now rewrite H, H0.
  now destruct a.
Qed.

(** C6.  The conversion pair multiplies by [pi/180] and by [180/pi] under
    "Degrees" and is the identity under "Radians".  With a C library whose
    trigonometric functions are finite where defined, on a finite binary64
    [x] the Trigonometry operations return the function of
    [x * (pi/180)] under "Degrees" and of [x] under "Radians", and the
    Inverse Trig operations return the inverse function of [x] multiplied
    by [180/pi] under "Degrees" and unconverted under "Radians". *)
Theorem angle_conversion (R : runtime) (Htrig : trig_contract R) :
  (forall x : float,
      to_radians (VFloat x) "Degrees"
      = ret (VFloat (F64.mul x (F64.div F64.pi (F64.of_Z 180))))
      /\ from_radians (VFloat x) "Degrees"
         = ret (VFloat (F64.mul x (F64.div (F64.of_Z 180) F64.pi))))
  /\ (forall v : pyval,
         to_radians v "Radians" = ret v /\ from_radians v "Radians" = ret v)
  /\ (forall (x : float) (y base : pyval),
         F64.well_formed x = true -> F64.is_finite x = true ->
         evaluate R "Trigonometry" "sin" (VFloat x) y base "Degrees"
         = Success (VFloat (c_sin R (F64.mul x degToRad)))
         /\ evaluate R "Trigonometry" "cos" (VFloat x) y base "Degrees"
            = Success (VFloat (c_cos R (F64.mul x degToRad)))
         /\ evaluate R "Trigonometry" "tan" (VFloat x) y base "Degrees"
            = Success (VFloat (c_tan R (F64.mul x degToRad)))
         /\ evaluate R "Trigonometry" "sin" (VFloat x) y base "Radians"
            = Success (VFloat (c_sin R x))
         /\ evaluate R "Trigonometry" "cos" (VFloat x) y base "Radians"
            = Success (VFloat (c_cos R x))
         /\ evaluate R "Trigonometry" "tan" (VFloat x) y base "Radians"
            = Success (VFloat (c_tan R x)))
  /\ (forall (x : float) (y base : pyval),
         F64.leb lit_minus_1 x = true -> F64.leb x lit_1 = true ->
         evaluate R "Inverse Trig" "arcsin" (VFloat x) y base "Degrees"
         = Success (VFloat (F64.mul (c_asin R x) radToDeg))
         /\ evaluate R "Inverse Trig" "arccos" (VFloat x) y base "Degrees"
            = Success (VFloat (F64.mul (c_acos R x) radToDeg))
         /\ evaluate R "Inverse Trig" "arcsin" (VFloat x) y base "Radians"
            = Success (VFloat (c_asin R x))
         /\ evaluate R "Inverse Trig" "arccos" (VFloat x) y base "Radians"
            = Success (VFloat (c_acos R x)))
  /\ (forall (x : float) (y base : pyval),
         F64.is_finite x = true ->
         evaluate R "Inverse Trig" "arctan" (VFloat x) y base "Degrees"
         = Success (VFloat (F64.mul (c_atan R x) radToDeg))
         /\ evaluate R "Inverse Trig" "arctan" (VFloat x) y base "Radians"
            = Success (VFloat (c_atan R x))).
Proof.
  destruct Htrig as [Hfwd [Hinv Hatan]].
  split; [intros x; split; reflexivity|].
  split; [intros v; split; reflexivity|].
  split; [|split].
  - intros x y base Hwf Hx. unfold evaluate.
    rewrite !compute_sin, !compute_cos, !compute_tan.
    rewrite !forward_branch by (try assumption; intros a Ha; apply (Hfwd a Ha)).
    repeat split.
  - intros x y base Hlo Hhi. unfold evaluate.
    destruct (Hinv x Hlo Hhi) as [Hs Hc].
    rewrite !compute_arcsin, !compute_arccos, !outside_unit_interval_float.
    rewrite Hlo, Hhi. cbn [bind ret andb negb]. rewrite !Bool.andb_false_r.
    rewrite !inverse_branch by assumption. repeat split.
  - intros x y base Hx. unfold evaluate.
    rewrite !compute_arctan.
    rewrite !inverse_branch by (apply Hatan; exact Hx). split; reflexivity.
Qed.

Lemma angle_conversion_at_zero :
  trig_contract table_runtime
  /\ evaluate table_runtime "Trigonometry" "sin" (VFloat F64.zero) VNone VNone
       "Degrees"
     = Success (VFloat F64.zero)
  /\ evaluate table_runtime "Inverse Trig" "arcsin" (VFloat F64.zero) VNone VNone
       "Degrees"
     = Success (VFloat F64.zero).
Proof.
  split; [exact table_trig_contract|].
  pose proof (angle_conversion table_runtime table_trig_contract) as H.
  split.
  - exact (proj1 (proj1 (proj2 (proj2 H)) F64.zero VNone VNone eq_refl eq_refl)).
  - exact (proj1 (proj1 (proj2 (proj2 (proj2 H))) F64.zero VNone VNone
                    eq_refl eq_refl)).
Defined.

(** ** Formatting *)

Lemma length_append (a b : string) :
  String.length (a ++ b) = (String.length a + String.length b)%nat.
Proof. induction a as [|c a IH]; cbn; [reflexivity|now rewrite IH]. Qed.

Lemma decimals_append (a b : string) :
  decimals (a ++ b) =
  match decimals a with
  | Some k => Some (k + String.length b)%nat
  | None => decimals b
  end.
Proof.
  induction a as [|c a IH]; [reflexivity|].
  cbn [append decimals]. destruct (Ascii.eqb c "."); [|exact IH].
  now rewrite length_append.
Qed.

Lemma decimals_uint (d : Decimal.uint) :
  decimals (NilEmpty.string_of_uint d) = None.
Proof. induction d; cbn [NilEmpty.string_of_uint decimals]; auto. Qed.

(** The decimal numeral of an integer has no point, and reads back as the
    integer. *)
Lemma decimals_decimal (n : Z) : decimals (decimal n) = None.
Proof.
  unfold decimal, NilZero.string_of_int, NilZero.string_of_uint.
  destruct (Z.to_int n) as [d|d]; destruct d; try reflexivity;
    cbn [decimals Ascii.eqb]; try apply decimals_uint.
  all: cbn; apply decimals_uint.
Qed.

Lemma decimal_reads_back (n : Z) :
  option_map Z.of_int (NilZero.int_of_string (decimal n)) = Some n.
Proof.
  unfold decimal. rewrite NilZero.isi.
  - cbn [option_map]. now rewrite DecimalZ.of_to.
  - destruct n; cbn [Z.to_int]; try discriminate.
    intros [= E]. now apply (DecimalPos.Unsigned.to_uint_nonnil p).
  - destruct n; cbn [Z.to_int]; try discriminate.
    intros [= E]. now apply (DecimalPos.Unsigned.to_uint_nonnil p).
Qed.

Lemma length_frac_digits (p : nat) :
  forall r : Z, String.length (frac_digits p r) = p.
Proof.
  induction p as [|k IH]; intros r; [reflexivity|].
  cbn [frac_digits]. rewrite length_append, IH. cbn [String.length]. lia.
Qed.

Lemma decimals_fixed_of_scaled (n : Z) (p : nat) :
  decimals (fixed_of_scaled n p) = match p with O => None | S _ => Some p end.
Proof.
  unfold fixed_of_scaled. rewrite decimals_append, decimals_decimal.
  destruct p as [|k]; [reflexivity|].
  cbn [append decimals Ascii.eqb Bool.eqb]. now rewrite length_frac_digits.
Qed.

(** A finite float is rendered with exactly [p] digits after the point,
    and without a point when [p] is 0. *)
Lemma decimals_format_fixed (f : float) (p : nat) :
  F64.is_finite f = true ->
  decimals (format_fixed f p) = match p with O => None | S _ => Some p end.
Proof.
  destruct f as [s|s| |s m e]; try discriminate; intros _;
    cbn [format_fixed]; rewrite decimals_append;
    (destruct s; cbn [sign_text decimals Ascii.eqb Bool.eqb];
     apply decimals_fixed_of_scaled).
Qed.

Lemma format_number_float (R : runtime) (f : float) (p : nat) :
  (p <= 12)%nat -> format_number R (VFloat f) p = ret (format_fixed f p).
Proof.
  intros Hp. unfold format_number, fstring_fixed.
  cbn [is_int as_double bind ret].
  assert (H : (Z.of_nat p <=? max_format_precision) = true).
  { apply Z.leb_le. unfold max_format_precision. lia. }
  now rewrite H.
Qed.

(** C7 (amended).  For a precision of 0 to 12, [format_number] renders an
    [int] of at most 4300 digits as its exact decimal numeral, without a
    point; every finite [float], an integer-valued one such as 3.0
    included, in fixed point with exactly [precision] digits after the
    point (and no point at precision 0); an infinite or NaN float as "inf",
    "-inf" or "nan"; and [None] as "None", without raising. *)
Theorem format_number_rendering (R : runtime) (precision : nat)
    (Hp : (precision <= 12)%nat) :
  (forall n : Z,
      exceeds_str_digits n = false ->
      format_number R (VInt n) precision = ret (decimal n)
      /\ decimals (decimal n) = None
      /\ option_map Z.of_int (NilZero.int_of_string (decimal n)) = Some n)
  /\ (forall f : float,
         F64.is_finite f = true ->
         format_number R (VFloat f) precision = ret (format_fixed f precision)
         /\ decimals (format_fixed f precision)
            = match precision with O => None | S _ => Some precision end)
  /\ format_number R (VFloat (S754_infinity false)) precision = ret "inf"
  /\ format_number R (VFloat (S754_infinity true)) precision = ret "-inf"
  /\ format_number R (VFloat S754_nan) precision = ret "nan"
  /\ format_number R VNone precision = ret "None"
  /\ format_number R (VFloat (F64.of_Z 3)) 6 = ret "3.000000"
  /\ format_number R (VInt 120) precision = ret "120".
Proof.
  split.
  { intros n Hn. split; [|split].
    - unfold format_number. cbn [is_int py_str]. unfold str_int. now rewrite Hn.
    - apply decimals_decimal.
    - apply decimal_reads_back. }
  split.
  { intros f Hf. split.
    - now apply format_number_float.
    - now apply decimals_format_fixed. }
  repeat split; try (rewrite format_number_float by assumption; reflexivity);
    reflexivity.
Qed.

Lemma format_number_rendering_at_6 :
  (6 <= 12)%nat
  /\ format_number table_runtime (VInt 120) 6 = ret "120"
  /\ format_number table_runtime (VFloat (F64.div (F64.of_Z 1) (F64.of_Z 3))) 6
     = ret "0.333333".
Proof.
  assert (H : (6 <= 12)%nat) by lia.
  split; [exact H|]. split.
  - exact (proj2 (proj2 (proj2 (proj2 (proj2 (proj2 (proj2
             (format_number_rendering table_runtime 6 H)))))))).
  - exact (proj1 (proj1 (proj2 (format_number_rendering table_runtime 6 H))
                    (F64.div (F64.of_Z 1) (F64.of_Z 3)) eq_refl)).
Defined.

(** C7 as stated fails: the integer-valued result 3.0 (the square root of
    9) is rendered with a decimal point, and an infinite result without
    decimals. *)
Lemma format_number_integral_float_has_point :
  evaluate table_runtime "Advanced" "Square Root" (VFloat (F64.of_Z 9)) VNone
    VNone "Degrees"
  = Success (VFloat (F64.of_Z 3))
  /\ F64.is_integer (F64.of_Z 3) = true
  /\ format_number table_runtime (VFloat (F64.of_Z 3)) 6 = ret "3.000000"
  /\ format_number table_runtime (VFloat (S754_infinity false)) 6 = ret "inf".
Proof. repeat split; reflexivity. Qed.

(** ** The history ledger *)

(** Formatting raises only on an int beyond the digit limit. *)
Lemma format_number_raises (R : runtime) (v : pyval) (p : nat) :
  format_number R v p =
  match v with
  | VInt n =>
      if exceeds_str_digits n then raise (ValueError (Builtin int_str_limit))
      else ret (decimal n)
  | VFloat f =>
      ret (if Z.of_nat p <=? max_format_precision then format_fixed f p
           else float_repr R f)
  | VNone => ret "None"
  end.
Proof.
  destruct v as [|n|f]; try reflexivity.
  unfold format_number, fstring_fixed. cbn [is_int as_double bind ret].
  now destruct (Z.of_nat p <=? max_format_precision).
Qed.

Lemma last_entry_app (h : history) (e : entry) :
  last_entry (h ++ [e])%list = Some e.
Proof. unfold last_entry. now rewrite rev_unit. Qed.

Section Ledger.

Context (R : runtime).

Lemma on_calculate_appends (now : nat -> string) (group op : string)
    (x y base : pyval) (angle_mode : string) (precision : nat) (h : history) :
  fst (on_calculate R now group op x y base angle_mode precision h)
  = (h ++ appended R (Calculate now group op x y base angle_mode precision))%list.
Proof.
  unfold appended, on_calculate.
  destruct (compute R group op x y base angle_mode) as [e|v]; cbn [fst].
  - unfold add_history. now rewrite app_nil_l.
  - destruct (format_number R v precision) as [e|s]; cbn [fst];
      unfold add_history; rewrite ?app_nil_l, <- ?app_assoc; reflexivity.
Qed.

(** One entry per attempt, two when the result is an int too long to
    display. *)
Lemma length_appended (now : nat -> string) (group op : string)
    (x y base : pyval) (angle_mode : string) (precision : nat) :
  let ev := Calculate now group op x y base angle_mode precision in
  List.length (appended R ev) = if overlong_result R ev then 2%nat else 1%nat.
Proof.
  cbn [appended overlong_result]. unfold on_calculate.
  destruct (compute R group op x y base angle_mode) as [e|v]; [reflexivity|].
  rewrite format_number_raises. unfold ret, raise.
  destruct v as [|n|f]; try reflexivity.
  now destruct (exceeds_str_digits n).
Qed.

Lemma step_calculate (h : history) (ev : event) :
  ev <> ClearHistory -> step R h ev = (h ++ appended R ev)%list.
Proof.
  destruct ev as [now group op x y base angle_mode precision| |]; intros Hne.
  - apply on_calculate_appends.
  - now contradiction Hne.
  - cbn [step appended]. now rewrite app_nil_r.
Qed.

(** Without a clear in between the list only grows at its end. *)
Lemma run_appends (evs : list event) :
  forall h : history,
    Forall (fun ev => ev <> ClearHistory) evs ->
    run R evs h = (h ++ List.concat (map (appended R) evs))%list.
Proof.
  induction evs as [|ev evs IH]; intros h Hall; cbn [run fold_left map List.concat].
  - now rewrite app_nil_r.
  - inversion Hall as [|? ? Hev Hrest]; subst.
    change (fold_left (step R) evs (step R h ev)) with (run R evs (step R h ev)).
    rewrite (IH _ Hrest), (step_calculate h ev Hev). now rewrite app_assoc.
Qed.

Lemma run_app (evs1 evs2 : list event) (h : history) :
  run R (evs1 ++ evs2) h = run R evs2 (run R evs1 h).
Proof. unfold run. apply fold_left_app. Qed.

(** The last entry of a reachable history can be displayed: an entry whose
    int result is beyond the digit limit is followed, within the same
    attempt, by the entry of the error. *)
Lemma step_displayable (h : history) (ev : event) :
  displayable h -> displayable (step R h ev).
Proof.
  intros Hd. destruct ev as [now group op x y base angle_mode precision| |];
    [|exact I|exact Hd].
  cbn [step]. unfold on_calculate, displayable.
  destruct (compute R group op x y base angle_mode) as [e|v]; cbn [fst].
  - unfold add_history. rewrite last_entry_app. discriminate.
  - rewrite format_number_raises. unfold ret, raise.
    destruct v as [|n|f]; [| |]; cbn [fst]; unfold add_history.
    + rewrite last_entry_app. intros _. exact I.
    + destruct (exceeds_str_digits n) eqn:Hn; cbn [fst]; unfold add_history;
        rewrite last_entry_app; cbn [error entry_result].
      * discriminate.
      * intros _. exact Hn.
    + rewrite last_entry_app. intros _. exact I.
Qed.

Lemma reachable_displayable (h : history) : reachable R h -> displayable h.
Proof.
  intros [evs ->]. unfold run.
  assert (H : forall h0, displayable h0 -> displayable (fold_left (step R) evs h0)).
  { induction evs as [|ev evs IH]; intros h0 Hd; [exact Hd|].
    cbn [fold_left]. apply IH. now apply step_displayable. }
  apply H. exact I.
Qed.

End Ledger.

Lemma compute_factorial_int (R : runtime) (n : Z) (y base : pyval)
    (angle_mode : string) :
  0 <= n <= LONG_MAX R ->
  compute R "Misc" "Factorial" (VInt n) y base angle_mode
  = ret (VInt (zfact (Z.to_nat n))).
Proof.
  intros Hn. rewrite compute_factorial. cbn [is_int andb].
  assert (H0 : (0 <=? n) = true) by (apply Z.leb_le; lia).
  assert (H1 : (LONG_MAX R <? n) = false) by (apply Z.ltb_ge; lia).
  assert (H2 : (n <? 0) = false) by (apply Z.ltb_ge; lia).
  rewrite H0. cbn [negb]. unfold math_factorial. now rewrite H1, H2.
Qed.

(** The factorial of 1559 is the first with more than 4300 digits. *)
Lemma digits_of_factorial_1559 :
  exceeds_str_digits (zfact 1558) = false
  /\ exceeds_str_digits (zfact 1559) = true.
Proof. split; vm_compute; reflexivity. Qed.

(** C5 at its failing input.  One Calculate attempt of the factorial of
    1559 appends two entries: the entry with the result and, because the
    result cannot be converted to text inside the same [try], the entry of
    that error.  The factorial of 1558 appends one. *)
Theorem factorial_1559_appends_two_entries (R : runtime) (now : nat -> string)
    (precision : nat) (h : history) (Hlong : 1559 <= LONG_MAX R) :
  List.length (fst (on_calculate R now "Misc" "Factorial" (VInt 1559) VNone VNone
                      "Degrees" precision h))
  = (List.length h + 2)%nat
  /\ snd (on_calculate R now "Misc" "Factorial" (VInt 1559) VNone VNone
            "Degrees" precision h)
     = st_error (Builtin int_str_limit)
  /\ List.length (fst (on_calculate R now "Misc" "Factorial" (VInt 1558) VNone
                         VNone "Degrees" precision h))
     = (List.length h + 1)%nat.
Proof.
  destruct digits_of_factorial_1559 as [H58 H59].
  assert (C59 : compute R "Misc" "Factorial" (VInt 1559) VNone VNone "Degrees"
                = ret (VInt (zfact 1559)))
    by (apply (compute_factorial_int R 1559); lia).
  assert (C58 : compute R "Misc" "Factorial" (VInt 1558) VNone VNone "Degrees"
                = ret (VInt (zfact 1558)))
    by (apply (compute_factorial_int R 1558); lia).
  split; [|split].
  - rewrite on_calculate_appends, length_app, length_appended.
    cbn [overlong_result]. rewrite C59. unfold ret. now rewrite H59.
  - unfold on_calculate. rewrite C59. unfold ret.
    rewrite format_number_raises, H59. reflexivity.
  - rewrite on_calculate_appends, length_app, length_appended.
    cbn [overlong_result]. rewrite C58. unfold ret. now rewrite H58.
Qed.

Lemma factorial_1559_appends_two_entries_from_empty :
  1559 <= LONG_MAX table_runtime
  /\ List.length (fst (on_calculate table_runtime (fun _ => "") "Misc" "Factorial"
                         (VInt 1559) VNone VNone "Degrees" 6 []))
     = 2%nat.
Proof.
  assert (H : 1559 <= LONG_MAX table_runtime) by (vm_compute; discriminate).
  split; [exact H|].
  exact (proj1 (factorial_1559_appends_two_entries table_runtime (fun _ => "")
                  6 [] H)).
Defined.

(** ** Copy last result *)

(** C10.  On every history a session can reach, the copy handler does
    not raise; it shows "No history yet." on an empty history, "Last entry
    has no result to copy." when the last entry records an error or has
    the result [None], and the text of the last entry's result exactly
    when that entry has no error and a result other than [None]. *)
Theorem copy_last_result_outcome (R : runtime) (h : history)
    (Hreach : reachable R h) :
  match last_entry h with
  | None => on_copy_last_result R h = ret (st_info "No history yet.")
  | Some e =>
      match error e, entry_result e with
      | Some _, _ | None, VNone =>
          on_copy_last_result R h = ret (st_info "Last entry has no result to copy.")
      | None, v =>
          exists s : string,
            py_str R v = ret s /\ on_copy_last_result R h = ret (st_code s)
      end
  end.
Proof.
  pose proof (reachable_displayable R h Hreach) as Hd.
  unfold displayable in Hd. unfold on_copy_last_result.
  destruct (last_entry h) as [e|]; [|reflexivity].
  destruct (error e) as [t|]; [reflexivity|].
  specialize (Hd eq_refl).
  destruct (entry_result e) as [|n|f]; [reflexivity| |].
  - cbn [is_None negb andb py_str]. unfold str_int. rewrite Hd.
    exists (decimal n). split; reflexivity.
  - cbn [is_None negb andb py_str]. exists (float_repr R f). split; reflexivity.
Qed.

Lemma copy_last_result_outcome_after_factorial :
  reachable table_runtime
    (run table_runtime
       [Calculate (fun _ => "") "Misc" "Factorial" (VInt 5) VNone VNone "Degrees" 6]
       init_state)
  /\ on_copy_last_result table_runtime
       (run table_runtime
          [Calculate (fun _ => "") "Misc" "Factorial" (VInt 5) VNone VNone
             "Degrees" 6]
          init_state)
     = ret (st_code "120").
Proof.
  assert (H : reachable table_runtime
                (run table_runtime
                   [Calculate (fun _ => "") "Misc" "Factorial" (VInt 5) VNone
                      VNone "Degrees" 6]
                   init_state))
    by (eexists; reflexivity).
  split; [exact H|].
  destruct (copy_last_result_outcome table_runtime _ H) as [s [Hs Hc]].
  rewrite Hc. cbv in Hs. now injection Hs as <-.
Defined.

(* ------------------------------------------------------------------ *)
(** * Further properties of the evaluator and the ledger *)

(** ** Operations without a precondition *)

(** X1.  On float operands Add, Subtract, Multiply, Absolute and Percentage
    always succeed, with the binary64 sum, difference, product, absolute
    value and [(x / 100.0) * y]. *)
Theorem arithmetic_outcome (R : runtime) (x y : float) (base : pyval)
    (angle_mode : string) :
  evaluate R "Basic" "Add" (VFloat x) (VFloat y) base angle_mode
  = Success (VFloat (F64.add x y))
  /\ evaluate R "Basic" "Subtract" (VFloat x) (VFloat y) base angle_mode
     = Success (VFloat (F64.sub x y))
  /\ evaluate R "Basic" "Multiply" (VFloat x) (VFloat y) base angle_mode
     = Success (VFloat (F64.mul x y))
  /\ evaluate R "Misc" "Absolute" (VFloat x) (VFloat y) base angle_mode
     = Success (VFloat (F64.abs x))
  /\ evaluate R "Misc" "Percentage (x of y)" (VFloat x) (VFloat y) base angle_mode
     = Success (VFloat (F64.mul (F64.div x lit_100) y)).
Proof. repeat split; reflexivity. Qed.

(** ** Square root *)

Lemma sqrt_core_finite (m : positive) (e : Z) :
  Zpos (digits2_pos m) <= 53 -> e <= 971 ->
  F64.is_finite (F64.sqrt (S754_finite false m e)) = true.
Proof.
  intros Hd He. unfold F64.sqrt, SFsqrt, SFsqrt_core_binary.
  rewrite fexp_eq. cbn [Zdigits2].
  set (d := Zpos (digits2_pos m)) in *.
  set (e' := Z.min (Z.max (Z.div2 (d + e + 1) - 53) (-1074)) (Z.div2 e)).
  assert (Hdiv : 2 * Z.div2 e <= e <= 2 * Z.div2 e + 1).
  { rewrite Z.div2_div. pose proof (Z.div_mod e 2 ltac:(lia)).
    pose proof (Z.mod_pos_bound e 2 ltac:(lia)). lia. }
  assert (Hdiv' : 2 * Z.div2 (d + e + 1) <= d + e + 1 <= 2 * Z.div2 (d + e + 1) + 1).
  { rewrite Z.div2_div. pose proof (Z.div_mod (d + e + 1) 2 ltac:(lia)).
    pose proof (Z.mod_pos_bound (d + e + 1) 2 ltac:(lia)). lia. }
  assert (Hd0 : 1 <= d) by (unfold d; lia).
  assert (He' : e' <= Z.div2 e) by (unfold e'; lia).
  assert (Hlow : Z.div2 (d + e + 1) - 53 <= e' \/ Z.div2 e <= e') by (unfold e'; lia).
  set (s := e - 2 * e').
  assert (Hs : 0 <= s) by (unfold s; lia).
  set (m' := match s with
             | Z0 => Zpos m
             | Zpos _ => Z.shiftl (Zpos m) s
             | Zneg _ => 0
             end).
  assert (Hm' : 0 <= m' < 2 ^ (d + s)).
  { pose proof (digits2_pos_bounds m) as [_ Hm]. fold d in Hm.
    assert (E : m' = Zpos m * 2 ^ s).
    { unfold m'. destruct s as [|p|p] eqn:Es; [rewrite Z.mul_1_r; reflexivity| |lia].
      now rewrite Z.shiftl_mul_pow2 by lia. }
    rewrite E, Z.pow_add_r by lia.
    assert (0 < 2 ^ s) by (apply Z.pow_pos_nonneg; lia). nia. }
  destruct (Z.sqrtrem m') as [q r] eqn:Hq.
  assert (Eq : q = Z.sqrt m').
  { pose proof (Z.sqrtrem_sqrt m') as Hsq. now rewrite Hq in Hsq. }
  assert (Hq0 : 0 <= q) by (rewrite Eq; apply Z.sqrt_nonneg).
  assert (Hqm : q <= m').
  { rewrite Eq. destruct (Z.eq_dec m' 0) as [->|]; [reflexivity|].
    apply Z.sqrt_le_lin. lia. }
  assert (Hdq : Zdigits2 q <= d + s) by (apply Zdigits2_le; lia).
  pose proof (binary_round_aux_finite false q e'
                (if r =? 0 then loc_Exact
                 else loc_Inexact (if r <=? q then Lt else Gt))) as H.
  destruct (binary_round_aux F64.prec F64.emax false q e' _);
    try reflexivity; exfalso; apply H; unfold s in *; lia.
Qed.

(** The square root of a float that is not below zero is finite. *)
Lemma sqrt_finite (x : float) :
  F64.well_formed x = true -> F64.is_finite x = true ->
  F64.ltb x F64.zero = false ->
  F64.is_finite (F64.sqrt x) = true.
Proof.
  intros Hwf Hfin Hneg. destruct x as [s|s| |s m e]; try discriminate.
  - reflexivity.
  - destruct s; [discriminate|].
    destruct (well_formed_finite_bounds false m e Hwf) as [Hd He].
    now apply sqrt_core_finite.
Qed.

(** X2.  On a finite binary64 [x], Square Root fails with "Square root domain
    error: x must be ≥ 0." when [x < 0] and otherwise succeeds with the
    correctly rounded square root; -4 gives the failure and 9 gives 3. *)
Theorem square_root_outcome (R : runtime) (y base : pyval) (angle_mode : string) :
  (forall x : float,
      F64.well_formed x = true -> F64.is_finite x = true ->
      evaluate R "Advanced" "Square Root" (VFloat x) y base angle_mode =
      if F64.ltb x F64.zero
      then Failure (Text "Square root domain error: x must be ≥ 0.")
      else Success (VFloat (F64.sqrt x)))
  /\ evaluate R "Advanced" "Square Root" (VFloat (F64.of_Z (-4))) y base angle_mode
     = Failure (Text "Square root domain error: x must be ≥ 0.")
  /\ evaluate R "Advanced" "Square Root" (VFloat (F64.of_Z 9)) y base angle_mode
     = Success (VFloat (F64.of_Z 3)).
Proof.
  split; [|split; reflexivity].
  intros x Hwf Hfin. unfold evaluate.
  change (compute R "Advanced" "Square Root" (VFloat x) y base angle_mode)
    with (neg <- py_lt (VFloat x) (VInt 0) ;;
          if neg
          then raise (ValueError (Text "Square root domain error: x must be ≥ 0."))
          else float_result (math_sqrt (VFloat x))).
  rewrite py_lt_float_0. cbn [bind ret].
  destruct (F64.ltb x F64.zero) eqn:Hneg; [reflexivity|].
  unfold float_result, math_sqrt.
  rewrite math_1_finite by (now apply sqrt_finite). reflexivity.
Qed.

(** ** Exponential and the logarithms of fixed base *)

(** X3.  Exponential has no guard of its own: on a finite float it succeeds
    with the C library's [exp(x)] when that is finite and fails with the
    math module's range error when it overflowed. *)
Theorem exponential_outcome (R : runtime) (x : float) (y base : pyval)
    (angle_mode : string) (Hx : F64.is_finite x = true) :
  evaluate R "Advanced" "Exponential (e^x)" (VFloat x) y base angle_mode =
  if F64.is_nan (c_exp R x) then Failure (Builtin math_domain_error)
  else if F64.is_inf (c_exp R x) then Failure (Builtin math_range_error)
  else Success (VFloat (c_exp R x)).
Proof.
  unfold evaluate.
  change (compute R "Advanced" "Exponential (e^x)" (VFloat x) y base angle_mode)
    with (float_result (math_1 (c_exp R) true (VFloat x))).
  unfold float_result, math_1. cbn [as_double bind ret]. rewrite Hx.
  destruct x as [s|s| |s m e]; try discriminate; cbn [F64.is_nan negb];
    rewrite !Bool.andb_true_r;
    destruct (F64.is_nan (c_exp R _)); try reflexivity;
    destruct (F64.is_inf (c_exp R _)); reflexivity.
Qed.

Lemma exponential_outcome_at_zero :
  evaluate table_runtime "Advanced" "Exponential (e^x)" (VFloat F64.zero) VNone
    VNone "Degrees"
  = Success (VFloat F64.one).
Proof.
  exact (exponential_outcome table_runtime F64.zero VNone VNone "Degrees" eq_refl).
Defined.

(** X4.  Natural Log and Log Base 10 on a finite float fail with "Log domain
    error: x must be > 0." unless [x > 0], and then succeed with the C
    library's logarithm, provided that is finite. *)
Theorem logarithm_outcome (R : runtime) (x : float) (y base : pyval)
    (angle_mode : string) (Hx : F64.is_finite x = true)
    (Hlog : F64.ltb F64.zero x = true -> F64.is_finite (c_log R x) = true)
    (Hlog10 : F64.ltb F64.zero x = true -> F64.is_finite (c_log10 R x) = true) :
  evaluate R "Advanced" "Natural Log (ln)" (VFloat x) y base angle_mode
  = (if F64.ltb F64.zero x then Success (VFloat (c_log R x))
     else Failure (Text "Log domain error: x must be > 0."))
  /\ evaluate R "Advanced" "Log Base 10" (VFloat x) y base angle_mode
     = (if F64.ltb F64.zero x then Success (VFloat (c_log10 R x))
        else Failure (Text "Log domain error: x must be > 0.")).
Proof.
  unfold evaluate.
  change (compute R "Advanced" "Natural Log (ln)" (VFloat x) y base angle_mode)
    with (nonpos <- py_le (VFloat x) (VInt 0) ;;
          if nonpos
          then raise (ValueError (Text "Log domain error: x must be > 0."))
          else float_result (math_1 (m_log (c_log R)) false (VFloat x))).
  change (compute R "Advanced" "Log Base 10" (VFloat x) y base angle_mode)
    with (nonpos <- py_le (VFloat x) (VInt 0) ;;
          if nonpos
          then raise (ValueError (Text "Log domain error: x must be > 0."))
          else float_result (math_1 (m_log (c_log10 R)) false (VFloat x))).
  rewrite py_le_float_0, leb_zero_finite by exact Hx. cbn [bind ret].
  destruct (F64.ltb F64.zero x) eqn:Hpos; cbn [negb]; [|split; reflexivity].
  unfold float_result.
  assert (E : forall log, m_log log x = log x).
  { intros log. unfold m_log. now rewrite Hx, Hpos. }
  split.
  - rewrite math_1_finite by (rewrite E; now apply Hlog). now rewrite E.
  - rewrite math_1_finite by (rewrite E; now apply Hlog10). now rewrite E.
Qed.

Lemma logarithm_outcome_at_one :
  evaluate table_runtime "Advanced" "Natural Log (ln)" (VFloat F64.one) VNone
    VNone "Degrees"
  = Success (VFloat F64.zero).
Proof.
  exact (proj1 (logarithm_outcome table_runtime F64.one VNone VNone "Degrees"
                  eq_refl (fun _ => eq_refl) (fun _ => eq_refl))).
Defined.

(** ** The domain of arcsin and arccos *)

(** X5.  On a float outside [[-1, 1]], NaN included, arcsin and arccos fail
    with "Domain error: input must be in [-1, 1].". *)
Theorem inverse_trig_domain (R : runtime) (x : float) (y base : pyval)
    (angle_mode : string)
    (Hout : F64.leb lit_minus_1 x && F64.leb x lit_1 = false) :
  evaluate R "Inverse Trig" "arcsin" (VFloat x) y base angle_mode
  = Failure (Text "Domain error: input must be in [-1, 1].")
  /\ evaluate R "Inverse Trig" "arccos" (VFloat x) y base angle_mode
     = Failure (Text "Domain error: input must be in [-1, 1].").
Proof.
  unfold evaluate.
  rewrite compute_arcsin, compute_arccos, !outside_unit_interval_float, Hout.
  split; reflexivity.
Qed.

Lemma inverse_trig_domain_at_two :
  evaluate table_runtime "Inverse Trig" "arcsin" (VFloat F64.two) VNone VNone
    "Degrees"
  = Failure (Text "Domain error: input must be in [-1, 1].").
Proof.
  exact (proj1 (inverse_trig_domain table_runtime F64.two VNone VNone "Degrees"
                  eq_refl)).
Defined.

(** ** The ledger *)

(** X6.  A failed evaluation is recorded like a successful one: the attempt
    appends exactly one entry, with the error text and the result [None],
    and shows the error; a successful one whose result can be displayed
    appends exactly one entry with the result and no error. *)
Theorem attempt_is_recorded (R : runtime) (now : nat -> string)
    (group op : string) (x y base : pyval) (angle_mode : string)
    (precision : nat) (h : history) :
  match evaluate R group op x y base angle_mode with
  | Failure t =>
      on_calculate R now group op x y base angle_mode precision h
      = ((h ++ [ {| time := now 0%nat; operation := label group op;
                    inputs := (x, y, base, angle_mode);
                    entry_result := VNone; error := Some t |} ])%list,
         st_error t)
  | Success v =>
      forall s : string,
        format_number R v precision = ret s ->
        on_calculate R now group op x y base angle_mode precision h
        = ((h ++ [ {| time := now 0%nat; operation := label group op;
                      inputs := (x, y, base, angle_mode);
                      entry_result := v; error := None |} ])%list,
           st_success ("Result: **" ++ s ++ "**"))
  end.
Proof.
  unfold evaluate, on_calculate.
  destruct (compute R group op x y base angle_mode) as [e|v]; [reflexivity|].
  intros s Hs. now rewrite Hs.
Qed.

(** X7.  Without a clear in between, interactions only append: the history
    before is a prefix of the history after, followed by the entries of
    the attempts in attempt order, one per attempt or two when the attempt's
    int result is beyond the digit limit. *)
Theorem ledger_append_only (R : runtime) (evs : list event) (h : history)
    (Hnoclear : Forall (fun ev => ev <> ClearHistory) evs) :
  run R evs h = (h ++ List.concat (map (appended R) evs))%list
  /\ Forall (fun ev =>
               List.length (appended R ev)
               = match ev with
                 | Calculate _ _ _ _ _ _ _ _ =>
                     if overlong_result R ev then 2%nat else 1%nat
                 | _ => 0%nat
                 end) evs.
Proof.
  split; [now apply run_appends|].
  apply Forall_forall. intros ev _.
  destruct ev as [now group op x y base angle_mode precision| |];
    [apply length_appended|reflexivity|reflexivity].
Qed.

Lemma ledger_append_only_after_failure :
  run table_runtime
    [Calculate (fun _ => "") "Misc" "Factorial" (VInt 5) VNone VNone "Degrees" 6]
    (fst (on_calculate table_runtime (fun _ => "") "Basic" "Divide"
            (VFloat (F64.of_Z 5)) (VFloat (F64.of_Z 0)) VNone "Degrees" 6 []))
  = (fst (on_calculate table_runtime (fun _ => "") "Basic" "Divide"
            (VFloat (F64.of_Z 5)) (VFloat (F64.of_Z 0)) VNone "Degrees" 6 [])
     ++ List.concat
          (map (appended table_runtime)
             [Calculate (fun _ => "") "Misc" "Factorial" (VInt 5) VNone VNone
                "Degrees" 6]))%list.
Proof.
  apply (ledger_append_only table_runtime).
  repeat constructor; discriminate.
Defined.

(** X8.  The number of entries equals the number of attempts: from the empty
    history, [N] Calculate attempts none of which ends in an int beyond
    the digit limit leave exactly [N] entries. *)
Theorem ledger_counts_attempts (R : runtime) (evs : list event)
    (Hcalc : Forall (fun ev => match ev with
                               | Calculate _ _ _ _ _ _ _ _ => True
                               | _ => False
                               end) evs)
    (Hshort : Forall (fun ev => overlong_result R ev = false) evs) :
  List.length (run R evs init_state) = List.length evs.
Proof.
  rewrite run_appends.
  - cbn [init_state app]. induction evs as [|ev evs IH]; [reflexivity|].
    inversion Hcalc as [|? ? Hc Hcs]; inversion Hshort as [|? ? Hs Hss]; subst.
    cbn [map List.concat List.length]. rewrite length_app, (IH Hcs Hss).
    destruct ev as [now group op x y base angle_mode precision| |];
      try contradiction.
    rewrite length_appended, Hs. reflexivity.
  - apply Forall_forall. intros ev Hin.
    rewrite Forall_forall in Hcalc. specialize (Hcalc ev Hin).
    destruct ev; [discriminate|contradiction|contradiction].
Qed.

Lemma ledger_counts_attempts_two :
  List.length
    (run table_runtime
       [Calculate (fun _ => "") "Basic" "Divide" (VFloat (F64.of_Z 5))
          (VFloat (F64.of_Z 0)) VNone "Degrees" 6;
        Calculate (fun _ => "") "Misc" "Factorial" (VInt 5) VNone VNone
          "Degrees" 6]
       init_state)
  = 2%nat.
Proof.
  apply (ledger_counts_attempts table_runtime
           [Calculate (fun _ => "") "Basic" "Divide" (VFloat (F64.of_Z 5))
              (VFloat (F64.of_Z 0)) VNone "Degrees" 6;
            Calculate (fun _ => "") "Misc" "Factorial" (VInt 5) VNone VNone
              "Degrees" 6]).
  - repeat constructor.
  - repeat constructor.
Defined.

(** Clear history empties the ledger whatever it held, and one attempt
    after it leaves a ledger holding that attempt's entries only. *)
Theorem clear_history_empties (R : runtime) (evs1 : list event) (ev : event)
    (h : history) :
  run R (evs1 ++ [ClearHistory]) h = []
  /\ run R (evs1 ++ [ClearHistory; ev]) h = step R [] ev
  /\ fst (on_clear_history h) = [].
Proof.
  split; [|split; [|reflexivity]].
  - rewrite run_app. reflexivity.
  - rewrite run_app. reflexivity.
Qed.

(* ------------------------------------------------------------------ *)
(** * The script as a whole *)

(** ** What a computation can raise and return *)

Lemma outcome_in_bind {A B : Type} (P : exn -> Prop) (Q1 : A -> Prop)
    (Q : B -> Prop) (c : result A) (k : A -> result B) :
  outcome_in P Q1 c ->
  (forall a : A, Q1 a -> outcome_in P Q (k a)) ->
  outcome_in P Q (bind c k).
Proof. destruct c as [e|a]; cbn; auto. Qed.

Lemma outcome_in_weaken {A : Type} (P P' : exn -> Prop) (Q Q' : A -> Prop)
    (c : result A) :
  (forall e, P e -> P' e) -> (forall a, Q a -> Q' a) ->
  outcome_in P Q c -> outcome_in P' Q' c.
Proof. destruct c; cbn; auto. Qed.

(** Case analysis on the innermost scrutinee of the goal. *)
Ltac destruct_innermost :=
  match goal with
  | |- context [match ?x with _ => _ end] =>
      lazymatch x with
      | context [match _ with _ => _ end] => fail
      | _ => destruct x eqn:?
      end
  end.

Ltac unfold_operators :=
  unfold outside_unit_interval, to_radians, from_radians, float_result,
    math_log_base, math_radians, math_degrees, math_sqrt, math_exp,
    math_sin, math_cos, math_tan, math_asin, math_acos, math_atan,
    math_log, math_log10, loghelper, math_1, math_pow, math_factorial,
    py_add, py_sub, py_mul, arith, py_truediv, float_truediv, py_lt, py_le,
    py_eq, py_compare, py_abs, as_double, is_int, is_None, bind, ret, raise.

(** Every exception the evaluation raises has a text that is not empty. *)
Lemma compute_raises_truthy (R : runtime) (group op : string) (x y base : pyval)
    (angle_mode : string) :
  outcome_in truthy_error (fun _ => True)
    (compute R group op x y base angle_mode).
Proof.
  unfold compute. unfold_operators.
  repeat destruct_innermost; cbn; try exact I; reflexivity.
Qed.

(** ** What the history holds *)

Section Recorded.

Context (R : runtime).

Lemma on_calculate_well_recorded (now : nat -> string) (group op : string)
    (x y base : pyval) (angle_mode : string) (precision : nat) (h : history) :
  Forall well_recorded h ->
  Forall well_recorded
    (fst (on_calculate R now group op x y base angle_mode precision h)).
Proof.
  intros Hh. unfold on_calculate.
  pose proof (compute_raises_truthy R group op x y base angle_mode) as Hc.
  destruct (compute R group op x y base angle_mode) as [e|v]; cbn [fst].
  - unfold add_history. apply Forall_app. split; [exact Hh|].
    constructor; [|constructor]. split; [exact Hc|reflexivity].
  - rewrite format_number_raises. unfold ret, raise, add_history.
    destruct v as [|n|f]; cbn [fst]; try (destruct (exceeds_str_digits n));
      cbn [fst]; repeat (apply Forall_app; split); try exact Hh;
      repeat constructor.
Qed.

Lemma run_well_recorded (evs : list event) :
  forall h : history, Forall well_recorded h -> Forall well_recorded (run R evs h).
Proof.
  induction evs as [|ev evs IH]; intros h Hh; [exact Hh|].
  cbn [run fold_left]. apply IH.
  destruct ev as [now group op x y base angle_mode precision| |].
  - now apply on_calculate_well_recorded.
  - constructor.
  - exact Hh.
Qed.

End Recorded.

(** X10.  In every history a session can reach, an entry that carries an
    error carries a text that is not empty and no result; so an entry
    never has both a result and an error. *)
Theorem history_entries_well_recorded (R : runtime) (h : history)
    (Hreach : reachable R h) :
  Forall (fun e =>
            forall t : errtext,
              error e = Some t -> t <> Text "" /\ entry_result e = VNone) h.
Proof.
  destruct Hreach as [evs ->].
  pose proof (run_well_recorded R evs init_state (Forall_nil _)) as H.
  eapply Forall_impl; [|exact H].
  intros e He t Ht. unfold well_recorded in He. rewrite Ht in He.
  destruct He as [Htr Hres]. split; [|exact Hres].
  intros ->. discriminate Htr.
Qed.

Lemma history_entries_well_recorded_after_failure :
  Forall (fun e =>
            forall t : errtext,
              error e = Some t -> t <> Text "" /\ entry_result e = VNone)
    (run table_runtime
       [Calculate (fun _ => "") "Basic" "Divide" (VFloat (F64.of_Z 5))
          (VFloat (F64.of_Z 0)) VNone "Degrees" 6]
       init_state).
Proof.
  apply (history_entries_well_recorded table_runtime).
  eexists. reflexivity.
Defined.

(** ** The History tab *)




(** ** Calculate, then Copy last result *)

(** X12.  Copy last result pressed after a Calculate attempt, whatever the
    history held before: it shows the text of the result just computed when
    the evaluation succeeded with a float or with an int of at most 4300
    digits, and "Last entry has no result to copy." when the evaluation
    failed, when its result is [None], or when the result is an int too
    long to display (the last entry is then the entry of that error). *)
Theorem copy_after_calculate (R : runtime) (now : nat -> string)
    (group op : string) (x y base : pyval) (angle_mode : string)
    (precision : nat) (h : history) :
  on_copy_last_result R
    (fst (on_calculate R now group op x y base angle_mode precision h))
  = match evaluate R group op x y base angle_mode with
    | Success (VFloat f) => ret (st_code (float_repr R f))
    | Success (VInt n) =>
        if exceeds_str_digits n
        then ret (st_info "Last entry has no result to copy.")
        else ret (st_code (decimal n))
    | Success VNone | Failure _ =>
        ret (st_info "Last entry has no result to copy.")
    end.
Proof.
  unfold evaluate, on_calculate, on_copy_last_result.
  destruct (compute R group op x y base angle_mode) as [e|v]; cbn [fst].
  - unfold add_history. now rewrite last_entry_app.
  - rewrite format_number_raises. unfold ret, raise, add_history.
    destruct v as [|n|f]; cbn [fst].
    + now rewrite last_entry_app.
    + destruct (exceeds_str_digits n) eqn:Hn; cbn [fst]; unfold add_history;
        rewrite last_entry_app; cbn [error entry_result is_None negb andb py_str];
        [reflexivity|].
      unfold str_int. now rewrite Hn.
    + now rewrite last_entry_app.
Qed.

(** ** The ledger across clears *)

Lemma since_last_clear_none (evs : list event) :
  has_clear evs = false -> since_last_clear evs = evs.
Proof.
  destruct evs as [|ev rest]; [reflexivity|].
  unfold has_clear. cbn [existsb since_last_clear]. intros H.
  apply Bool.orb_false_iff in H. destruct H as [Hev Hrest].
  fold (has_clear rest). unfold has_clear at 1. now rewrite Hrest, Hev.
Qed.

Lemma step_not_clear (R : runtime) (h : history) (ev : event) :
  is_clear ev = false -> step R h ev = (h ++ appended R ev)%list.
Proof. intros H. apply step_calculate. intros ->. discriminate H. Qed.

(** X9.  The history after any sequence of interactions is the entries of
    the attempts made since the last Clear history, in attempt order,
    appended to the initial history when there was no clear and to the
    empty list when there was one. *)
Theorem ledger_since_last_clear (R : runtime) (evs : list event) (h : history) :
  run R evs h
  = ((if has_clear evs then [] else h)
     ++ List.concat (map (appended R) (since_last_clear evs)))%list.
Proof.
  revert h. induction evs as [|ev rest IH]; intros h.
  - cbn. now rewrite app_nil_r.
  - change (run R (ev :: rest) h) with (run R rest (step R h ev)).
    rewrite IH. unfold has_clear. cbn [existsb since_last_clear].
    fold (has_clear rest).
    destruct (has_clear rest) eqn:Hrest.
    + now rewrite Bool.orb_true_r.
    + rewrite Bool.orb_false_r, (since_last_clear_none rest Hrest).
      destruct (is_clear ev) eqn:Hev.
      * destruct ev; try discriminate. reflexivity.
      * rewrite (step_not_clear R h ev Hev). cbn [map List.concat].
        now rewrite app_assoc.
Qed.

(** ** The operations the select boxes offer *)

(** X13.  Every operation of the table is implemented for the operands its
    number inputs supply: whatever numbers are entered, the evaluation
    either returns a number (never [None]) or raises an exception other
    than a [TypeError]; no offered operation meets a missing operand. *)
Theorem offered_operation_is_implemented (R : runtime) (group op : string)
    (w : entered) (angle_mode : string) (Htable : in_table group op = true) :
  outcome_in not_type_error is_number
    (let '(x, y, base) := read_inputs group op w in
     compute R group op x y base angle_mode).
Proof.
  unfold in_table, ops in Htable. cbn [existsb fst snd] in Htable.
  unfold compute, read_inputs.
  repeat (case_eqb; cbn [andb orb] in Htable; try discriminate Htable;
          try clash).
  all: repeat match goal with
              | H : String.eqb ?g _ = true |- _ =>
                  apply String.eqb_eq in H; subst g
              end;
    cbn in Htable; try discriminate Htable.
  all: clear; cbv beta iota zeta; unfold_operators;
    repeat (cbv beta iota zeta; destruct_innermost);
    exact I.
Qed.

Lemma offered_operation_is_implemented_divide :
  in_table "Basic" "Divide" = true
  /\ outcome_in not_type_error is_number
       (compute table_runtime "Basic" "Divide" (VFloat (F64.of_Z 1))
          (VFloat (F64.of_Z 4)) VNone "Degrees").
Proof.
  split; [reflexivity|].
  exact (offered_operation_is_implemented table_runtime "Basic" "Divide"
           {| first_column := F64.of_Z 1; second_column := F64.of_Z 4;
              factorial_input := 0%N |} "Degrees" eq_refl).
Defined.

(** X14.  Through its number input, whose [min_value] is 0, Factorial never
    answers "Factorial requires a non-negative integer.": it succeeds with
    the factorial of the int entered, unless that int is beyond the
    platform's [LONG_MAX], where [math.factorial] raises. *)
Theorem factorial_through_widget (R : runtime) (w : entered)
    (angle_mode : string) :
  (let '(x, y, base) := read_inputs "Misc" "Factorial" w in
   evaluate R "Misc" "Factorial" x y base angle_mode)
  = if LONG_MAX R <? Z.of_N (factorial_input w)
    then Failure (Builtin factorial_too_large)
    else Success (VInt (Z.of_nat (fact (N.to_nat (factorial_input w))))).
Proof.
  change (read_inputs "Misc" "Factorial" w)
    with (VInt (Z.of_N (factorial_input w)), VNone, VNone).
  cbv beta iota zeta. unfold evaluate.
  destruct (LONG_MAX R <? Z.of_N (factorial_input w)) eqn:Hbig.
  - rewrite compute_factorial. cbn [is_int andb].
    assert (H0 : (0 <=? Z.of_N (factorial_input w)) = true)
      by (apply Z.leb_le; lia).
    rewrite H0. cbn [negb]. unfold math_factorial. now rewrite Hbig.
  - rewrite compute_factorial_int by (apply Z.ltb_ge in Hbig; lia).
    unfold ret. now rewrite zfact_fact, <- N_nat_Z, Nat2Z.id.
Qed.

(** ** One run of the script after another *)

Section ScriptRuns.

Context (R : runtime).






End ScriptRuns.



(** ** The digits of a fixed-point rendering *)

Lemma digits_value_append (a b : string) :
  forall acc : Z,
    digits_value acc (a ++ b) =
    match digits_value acc a with
    | Some v => digits_value v b
    | None => None
    end.
Proof.
  induction a as [|c a IH]; intros acc; [reflexivity|].
  cbn [append digits_value].
  destruct ((0 <=? Z.of_nat (nat_of_ascii c) - 48)
            && (Z.of_nat (nat_of_ascii c) - 48 <=? 9)); [apply IH|reflexivity].
Qed.

Lemma digits_value_step (k acc : Z) (c : ascii) (rest : string) :
  Z.of_nat (nat_of_ascii c) - 48 = k -> 0 <= k <= 9 ->
  digits_value acc (String c rest) = digits_value (10 * acc + k) rest.
Proof.
  intros <- Hk. cbn [digits_value].
  assert (H : (0 <=? Z.of_nat (nat_of_ascii c) - 48)
              && (Z.of_nat (nat_of_ascii c) - 48 <=? 9) = true).
  { apply andb_true_intro. split; apply Z.leb_le; lia. }
  now rewrite H.
Qed.

Ltac digit_step k :=
  rewrite (digits_value_step k) by (try reflexivity; lia).

Lemma digits_value_uint_acc (d : Decimal.uint) :
  forall acc : positive,
    digits_value (Zpos acc) (NilEmpty.string_of_uint d)
    = Some (Zpos (Pos.of_uint_acc d acc)).
Proof.
  induction d; intros acc; cbn [NilEmpty.string_of_uint Pos.of_uint_acc];
    [reflexivity|..].
  - digit_step 0; rewrite <- IHd; f_equal; lia.
  - digit_step 1; rewrite <- IHd; f_equal; lia.
  - digit_step 2; rewrite <- IHd; f_equal; lia.
  - digit_step 3; rewrite <- IHd; f_equal; lia.
  - digit_step 4; rewrite <- IHd; f_equal; lia.
  - digit_step 5; rewrite <- IHd; f_equal; lia.
  - digit_step 6; rewrite <- IHd; f_equal; lia.
  - digit_step 7; rewrite <- IHd; f_equal; lia.
  - digit_step 8; rewrite <- IHd; f_equal; lia.
  - digit_step 9; rewrite <- IHd; f_equal; lia.
Qed.

Lemma digits_value_uint (d : Decimal.uint) :
  digits_value 0 (NilEmpty.string_of_uint d) = Some (Z.of_N (Pos.of_uint d)).
Proof.
  induction d; cbn [NilEmpty.string_of_uint Pos.of_uint]; [reflexivity|..].
  - digit_step 0. exact IHd.
  - digit_step 1. apply (digits_value_uint_acc d 1).
  - digit_step 2. apply (digits_value_uint_acc d 2).
  - digit_step 3. apply (digits_value_uint_acc d 3).
  - digit_step 4. apply (digits_value_uint_acc d 4).
  - digit_step 5. apply (digits_value_uint_acc d 5).
  - digit_step 6. apply (digits_value_uint_acc d 6).
  - digit_step 7. apply (digits_value_uint_acc d 7).
  - digit_step 8. apply (digits_value_uint_acc d 8).
  - digit_step 9. apply (digits_value_uint_acc d 9).
Qed.

(** The decimal numeral of a non-negative integer spells that integer. *)
Lemma digits_value_decimal (q : Z) :
  0 <= q -> digits_value 0 (decimal q) = Some q.
Proof.
  intros Hq. destruct q as [|p|p]; [reflexivity| |lia].
  unfold decimal. cbn [Z.to_int NilZero.string_of_int].
  unfold NilZero.string_of_uint.
  pose proof (DecimalPos.Unsigned.to_uint_nonnil p) as Hnil.
  pose proof (DecimalPos.Unsigned.of_to p) as Hof.
  destruct (Pos.to_uint p) eqn:E; [now contradiction Hnil|..];
    rewrite digits_value_uint, Hof; reflexivity.
Qed.

Lemma digit_char_value (d : Z) :
  0 <= d <= 9 -> Z.of_nat (nat_of_ascii (digit_char d)) - 48 = d.
Proof.
  intros Hd. unfold digit_char. rewrite nat_ascii_embedding by lia. lia.
Qed.

(** The [p] fractional digits spell [r mod 10^p]. *)
Lemma digits_value_frac (p : nat) :
  forall acc r : Z,
    0 <= r ->
    digits_value acc (frac_digits p r)
    = Some (acc * 10 ^ Z.of_nat p + r mod 10 ^ Z.of_nat p).
Proof.
  induction p as [|k IH]; intros acc r Hr.
  - cbn [frac_digits digits_value]. change (10 ^ Z.of_nat 0) with 1.
    rewrite Z.mod_1_r. f_equal. lia.
  - cbn [frac_digits]. rewrite digits_value_append.
    rewrite IH by (apply Z.div_pos; lia).
    assert (Hd : 0 <= r mod 10 <= 9)
      by (pose proof (Z.mod_pos_bound r 10 ltac:(lia)); lia).
    rewrite (digits_value_step (r mod 10)) by (auto using digit_char_value).
    cbn [digits_value]. f_equal.
    rewrite Nat2Z.inj_succ, Z.pow_succ_r by lia.
    rewrite (Z.rem_mul_r r 10 (10 ^ Z.of_nat k)) by (try lia; apply Z.pow_nonzero; lia).
    lia.
Qed.

(** [div_half_even a b] is the integer nearest to [a / b], the even one of
    two equally near. *)
Lemma div_half_even_nearest (a b : Z) :
  0 <= a -> 0 < b ->
  0 <= div_half_even a b
  /\ Z.abs (2 * (div_half_even a b * b - a)) <= b
  /\ (Z.abs (2 * (div_half_even a b * b - a)) = b ->
      Z.even (div_half_even a b) = true).
Proof.
  intros Ha Hb. unfold div_half_even.
  pose proof (Z.div_mod a b ltac:(lia)) as Hdm.
  pose proof (Z.mod_pos_bound a b Hb) as Hm.
  assert (Hq : 0 <= a / b) by (apply Z.div_pos; lia).
  set (q := a / b) in *. set (r := a mod b) in *.
  assert (E0 : q * b - a = - r) by lia.
  assert (E1 : (q + 1) * b - a = b - r) by lia.
  destruct (Z.compare_spec (2 * r) b) as [Hc|Hc|Hc].
  - destruct (Z.even q) eqn:He.
    + rewrite E0. split; [lia|]. split; [lia|]. intros _. exact He.
    + rewrite E1. split; [lia|]. split; [lia|]. intros _.
      rewrite Z.even_add, He. reflexivity.
  - rewrite E0. split; [lia|]. split; [lia|]. intros H. lia.
  - rewrite E1. split; [lia|]. split; [lia|]. intros H. lia.
Qed.

(** X16.  For a precision of 0 to 12, the text [format_number] gives for a
    finite non-zero float [±m·2^e] is its sign, an integer part and,
    after a point, exactly [precision] digits; the digits spell the integer
    [k] for which [k / 10^precision] is the decimal nearest to [m·2^e], the
    even [k] of two equally near: the result shown is correct to half a
    unit of its last digit. *)
Theorem fixed_point_text_is_rounded_value (R : runtime) (s : bool)
    (m : positive) (e : Z) (precision : nat) (Hp : (precision <= 12)%nat) :
  exists (k : Z) (int_part frac_part : string),
    format_number R (VFloat (S754_finite s m e)) precision
    = ret (sign_text s ++ int_part
           ++ match precision with O => "" | S _ => "." ++ frac_part end)
    /\ String.length frac_part = precision
    /\ digits_value 0 (int_part ++ frac_part) = Some k
    /\ if 0 <=? e
       then k = Zpos m * 2 ^ e * 10 ^ Z.of_nat precision
       else Z.abs (2 * (k * 2 ^ (- e) - Zpos m * 10 ^ Z.of_nat precision))
            <= 2 ^ (- e)
            /\ (Z.abs (2 * (k * 2 ^ (- e) - Zpos m * 10 ^ Z.of_nat precision))
                = 2 ^ (- e) ->
                Z.even k = true).
Proof.
  set (w := 10 ^ Z.of_nat precision).
  assert (Hw : 0 < w) by (apply Z.pow_pos_nonneg; lia).
  assert (Hk : 0 <= scaled m e precision
               /\ if 0 <=? e
                  then scaled m e precision = Zpos m * 2 ^ e * w
                  else Z.abs (2 * (scaled m e precision * 2 ^ (- e) - Zpos m * w))
                       <= 2 ^ (- e)
                       /\ (Z.abs (2 * (scaled m e precision * 2 ^ (- e)
                                       - Zpos m * w))
                           = 2 ^ (- e) ->
                           Z.even (scaled m e precision) = true)).
  { unfold scaled. fold w. destruct (0 <=? e) eqn:He.
    - apply Z.leb_le in He. split; [|reflexivity].
      assert (0 < 2 ^ e) by (apply Z.pow_pos_nonneg; lia). nia.
    - apply Z.leb_gt in He.
      assert (Hb : 0 < 2 ^ (- e)) by (apply Z.pow_pos_nonneg; lia).
      destruct (div_half_even_nearest (Zpos m * w) (2 ^ (- e)) ltac:(nia) Hb)
        as [H0 [H1 H2]].
      split; [exact H0|]. split; [exact H1|exact H2]. }
  destruct Hk as [Hk0 Hk].
  exists (scaled m e precision), (decimal (scaled m e precision / w)),
    (frac_digits precision (scaled m e precision mod w)).
  split; [|split; [|split]].
  - rewrite format_number_float by exact Hp.
    cbn [format_fixed]. unfold fixed_of_scaled. fold w. reflexivity.
  - apply length_frac_digits.
  - rewrite digits_value_append, digits_value_decimal
      by (apply Z.div_pos; lia).
    rewrite digits_value_frac by (apply Z.mod_pos_bound; lia).
    fold w. f_equal. rewrite Z.mod_mod by lia.
    pose proof (Z.div_mod (scaled m e precision) w ltac:(lia)). lia.
  - exact Hk.
Qed.

Lemma fixed_point_text_is_rounded_value_third :
  (6 <= 12)%nat
  /\ exists (k : Z) (int_part frac_part : string),
       format_number table_runtime
         (VFloat (S754_finite false 6004799503160661 (-54))) 6
       = ret (sign_text false ++ int_part ++ "." ++ frac_part)
       /\ String.length frac_part = 6%nat
       /\ digits_value 0 (int_part ++ frac_part) = Some k.
Proof.
  assert (H : (6 <= 12)%nat) by lia.
  split; [exact H|].
  destruct (fixed_point_text_is_rounded_value table_runtime false
              6004799503160661 (-54) 6 H) as [k [ip [fp [E [L [D _]]]]]].
  exists k, ip, fp. repeat split; assumption.
Defined.

(** ** Commutativity *)




